(** * riak_exporter: the stats-to-metrics bridge of [exporter.py]

    A shallow embedding of [MetricsHandler] (the two flatteners
    [parse_riak_stats_data] and [parse_riak_repl_stats_data], the fetcher
    [fetch_riak_stats] and the request handler [get]) together with the part
    of the Python 3 runtime the handler leans on: decoded JSON values,
    subscripting, iteration, [float()], and the text [str.format] produces
    for a float.  Theorems about the handler follow the definitions. *)

From Stdlib Require Import ZArith List String Ascii Bool Lia.
From Stdlib Require Import Floats.SpecFloat.
Import ListNotations.
Local Open Scope string_scope.
Local Open Scope Z_scope.
Set Warnings "-register-all".

(** ** Characters that cannot be written inside a string literal *)

Definition newline : string := String "010"%char EmptyString.
Definition dquote : string := String "034"%char EmptyString.

(** ** Decimal digits *)

Module Digits.

Definition digit_chars : list ascii :=
  ["0"; "1"; "2"; "3"; "4"; "5"; "6"; "7"; "8"; "9"]%char.

Definition digit_char (d : Z) : ascii :=
  nth (Z.to_nat (d mod 10)) digit_chars "0"%char.

(** Most significant digit first; [acc] holds the digits already produced. *)
Fixpoint digits_fuel (fuel : nat) (n : Z) (acc : string) : string :=
  match fuel with
  | O => acc
  | S fuel' =>
      let acc' := String (digit_char n) acc in
      if n / 10 =? 0 then acc' else digits_fuel fuel' (n / 10) acc'
  end.

(** Decimal text of a natural number [n >= 0]; ["0"] for zero. *)
Definition of_Z (n : Z) : string :=
  digits_fuel (S (Z.to_nat (Z.log2 n))) n EmptyString.

(** Number of decimal digits of [n > 0]. *)
Definition count (n : Z) : Z := Z.of_nat (String.length (of_Z n)).

Fixpoint zeros (n : nat) : string :=
  match n with O => EmptyString | S n' => String "0"%char (zeros n') end.

(** [n] in decimal, zero-padded on the left up to [width] characters. *)
Definition pad (width : Z) (n : Z) : string :=
  let s := of_Z n in
  zeros (Z.to_nat (width - Z.of_nat (String.length s))) ++ s.

End Digits.

(** ** Binary64 floats and their text

    A Python float is an IEEE-754 binary64; [spec_float] holds its sign,
    mantissa and exponent.  [float_repr] is the text of [repr(x)], which is
    also what [str.format] substitutes for a float under an empty format
    specification: the shortest decimal that reads back as [x], laid out
    with a decimal point, or with an exponent when the decimal point would
    fall left of the fourth leading zero or right of the sixteenth digit. *)

Module PyFloat.

Definition float := spec_float.
Definition prec : Z := 53.
Definition emax : Z := 1024.

(** [float(n)] for a Python int: round to nearest, ties to even; a result
    beyond the largest finite double raises OverflowError ([None]). *)
Definition of_int (n : Z) : option float :=
  match binary_normalize prec emax n 0 false with
  | S754_infinity _ => None
  | x => Some x
  end.

Definition pow10 (k : Z) : Z := 10 ^ k.

(** The smallest exponent, searched upwards from [p], whose power of ten
    exceeds [num / den]. *)
Fixpoint find_decpt (fuel : nat) (num den : Z) (p : Z) : Z :=
  match fuel with
  | O => p
  | S fuel' =>
      if num * pow10 (Z.max (- p) 0) <? den * pow10 (Z.max p 0)
      then p
      else find_decpt fuel' num den (p + 1)
  end.

(** Strip the trailing zeros of [c], counting them into the exponent. *)
Fixpoint strip_zeros (fuel : nat) (c k : Z) : Z * Z :=
  match fuel with
  | O => (c, k)
  | S fuel' =>
      if (c mod 10 =? 0) && negb (c =? 0)
      then strip_zeros fuel' (c / 10) (k + 1)
      else (c, k)
  end.

Section Shortest.
(** The float is [m * 2 ^ e].  All quantities below are numerators over the
    common denominator [den]: [num] is the float itself, [num - lo] and
    [num + hi] are the midpoints to its two neighbours. *)
Variables (m : positive) (e : Z).

Definition up : Z := 2 ^ Z.max e 0.
Definition num : Z := 4 * Zpos m * up.
Definition den : Z := 4 * 2 ^ Z.max (- e) 0.
Definition hi : Z := 2 * up.
Definition lo : Z :=
  if (Zpos m =? 2 ^ (prec - 1)) && (3 - emax - prec <? e) then up else 2 * up.
(** Reading a midpoint back rounds to the even mantissa. *)
Definition closed : bool := Z.even (Zpos m).

Definition decpt0 : Z :=
  let bits := Z.log2 (Zpos m) + e in
  find_decpt 8 num den (bits * 30103 / 100000 - 2).

(** The decimals [c * 10 ^ k] with [n] digits next to the float, when one
    of them reads back as the float: the nearer one if both do. *)
Definition candidate (n : Z) : option (Z * Z) :=
  let k := decpt0 - n in
  let a := num * pow10 (Z.max (- k) 0) in
  let b := den * pow10 (Z.max k 0) in
  let l := lo * pow10 (Z.max (- k) 0) in
  let h := hi * pow10 (Z.max (- k) 0) in
  let c1 := a / b in
  let c2 := c1 + 1 in
  let ok1 := if closed then a - l <=? c1 * b else a - l <? c1 * b in
  let ok2 := if closed then c2 * b <=? a + h else c2 * b <? a + h in
  match ok1, ok2 with
  | true, true =>
      match 2 * a ?= (2 * c1 + 1) * b with
      | Lt => Some (c1, k)
      | Gt => Some (c2, k)
      | Eq => Some (if Z.even c1 then c1 else c2, k)
      end
  | true, false => Some (c1, k)
  | false, true => Some (c2, k)
  | false, false => None
  end.

Fixpoint search (fuel : nat) (n : Z) : Z * Z :=
  match fuel with
  | O => (num * pow10 (Z.max (17 - decpt0) 0)
            / (den * pow10 (Z.max (decpt0 - 17) 0)), decpt0 - 17)
  | S fuel' =>
      match candidate n with
      | Some ck => ck
      | None => search fuel' (n + 1)
      end
  end.

(** The shortest digits [c] and the exponent [k]: the float prints as
    [c * 10 ^ k]. *)
Definition shortest : Z * Z :=
  let '(c, k) := search 17 1 in strip_zeros 20 c k.
End Shortest.

(** Lay out the digits [c] (no trailing zero) scaled by [10 ^ k]. *)
Definition layout (c k : Z) : string :=
  let n := Digits.count c in
  let decpt := k + n in
  if (decpt <=? -4) || (16 <? decpt) then
    let exp := decpt - 1 in
    (if n =? 1 then Digits.of_Z c
     else Digits.of_Z (c / pow10 (n - 1)) ++ "." ++
          Digits.pad (n - 1) (c mod pow10 (n - 1)))
    ++ "e" ++ (if exp <? 0 then "-" else "+") ++ Digits.pad 2 (Z.abs exp)
  else if decpt <=? 0 then
    "0." ++ Digits.pad (n - decpt) c
  else if n <=? decpt then
    Digits.of_Z (c * pow10 (decpt - n)) ++ ".0"
  else
    Digits.of_Z (c / pow10 (n - decpt)) ++ "." ++
    Digits.pad (n - decpt) (c mod pow10 (n - decpt)).

Definition float_repr (x : float) : string :=
  match x with
  | S754_nan => "nan"
  | S754_infinity s => if s then "-inf" else "inf"
  | S754_zero s => if s then "-0.0" else "0.0"
  | S754_finite s m e =>
      let '(c, k) := shortest m e in
      (if s then "-" else EmptyString) ++ layout c k
  end.

End PyFloat.

(** ** Decoded JSON and the Python operations applied to it *)

Module Py.

Import PyFloat.

(** What [json_decode] returns.  A dict keeps its entries in insertion
    order, so it is an association list. *)
Inductive json : Type :=
| JNull
| JBool (b : bool)
| JInt (n : Z)
| JFloat (x : float)
| JStr (s : string)
| JList (l : list json)
| JDict (d : list (string * json)).

(** The exceptions the handler can meet. *)
Inductive exn : Type :=
| TypeError
| AttributeError
| KeyError
| IndexError
| OverflowError
| HTTPError (code : Z) (message : string).

Definition result (A : Type) : Type := (exn + A)%type.

(** The values that are neither list nor dict; only these can be used as a
    subscript. *)
Inductive scalar : Type :=
| SNone
| SBool (b : bool)
| SInt (n : Z)
| SFloat (x : float)
| SStr (s : string).

Definition as_scalar (v : json) : option scalar :=
  match v with
  | JNull => Some SNone
  | JBool b => Some (SBool b)
  | JInt n => Some (SInt n)
  | JFloat x => Some (SFloat x)
  | JStr s => Some (SStr s)
  | JList _ | JDict _ => None
  end.

Definition int_str (n : Z) : string :=
  if n <? 0 then "-" ++ Digits.of_Z (- n) else Digits.of_Z n.

(** What [str.format] substitutes for a scalar under [{}]. *)
Definition py_str (c : scalar) : string :=
  match c with
  | SNone => "None"
  | SBool b => if b then "True" else "False"
  | SInt n => int_str n
  | SFloat x => float_repr x
  | SStr s => s
  end.

(** [isinstance(v, (int, float, bool))] together with [float(v)]: [None]
    when the test fails, otherwise the outcome of the conversion. *)
Definition number (v : json) : option (result float) :=
  match v with
  | JBool b =>
      Some (match of_int (if b then 1 else 0) with
            | Some x => inr x | None => inl OverflowError end)
  | JInt n =>
      Some (match of_int n with
            | Some x => inr x | None => inl OverflowError end)
  | JFloat x => Some (inr x)
  | _ => None
  end.

(** [d[k]] on the entries of a dict. *)
Fixpoint dict_get (k : string) (d : list (string * json)) : option json :=
  match d with
  | [] => None
  | (k', v) :: d' => if String.eqb k k' then Some v else dict_get k d'
  end.

(** A sequence index, negative ones counting from the end. *)
Definition seq_index (len : nat) (i : Z) : option nat :=
  let j := if i <? 0 then i + Z.of_nat len else i in
  if (0 <=? j) && (j <? Z.of_nat len) then Some (Z.to_nat j) else None.

Definition int_of_index (c : scalar) : option Z :=
  match c with
  | SInt n => Some n
  | SBool b => Some (if b then 1 else 0)
  | _ => None
  end.

Fixpoint chars (s : string) : list string :=
  match s with
  | EmptyString => []
  | String c s' => String c EmptyString :: chars s'
  end.

(** [v[c]]. *)
Definition getitem (v : json) (c : scalar) : result json :=
  match v with
  | JDict d =>
      match c with
      | SStr k =>
          match dict_get k d with Some x => inr x | None => inl KeyError end
      | _ => inl KeyError
      end
  | JList l =>
      match int_of_index c with
      | Some i =>
          match seq_index (List.length l) i with
          | Some j =>
              match nth_error l j with
              | Some x => inr x | None => inl IndexError end
          | None => inl IndexError
          end
      | None => inl TypeError
      end
  | JStr s =>
      match int_of_index c with
      | Some i =>
          match seq_index (String.length s) i with
          | Some j =>
              match nth_error (chars s) j with
              | Some x => inr (JStr x) | None => inl IndexError end
          | None => inl IndexError
          end
      | None => inl TypeError
      end
  | JNull | JBool _ | JInt _ | JFloat _ => inl TypeError
  end.

(** [v[cluster]] where the subscript is any decoded value: a list or a dict
    is unhashable as a dict key and is no index of a sequence. *)
Definition subscript (v cluster : json) : result (scalar * json) :=
  match as_scalar cluster with
  | None => inl TypeError
  | Some c =>
      match getitem v c with
      | inl e => inl e
      | inr x => inr (c, x)
      end
  end.

(** [v.items()]. *)
Definition items (v : json) : result (list (string * json)) :=
  match v with
  | JDict d => inr d
  | _ => inl AttributeError
  end.

(** The values [for x in v] binds [x] to. *)
Definition iter (v : json) : result (list json) :=
  match v with
  | JDict d => inr (List.map (fun kv => JStr (fst kv)) d)
  | JList l => inr l
  | JStr s => inr (List.map JStr (chars s))
  | JNull | JBool _ | JInt _ | JFloat _ => inl TypeError
  end.

End Py.

(** ** Generators

    A generator function is run to its end: the lines it yields, in order,
    and the exception that stopped it, if one did. *)

Module Gen.

Import Py.

Definition gen : Type := (list string * option exn)%type.

Definition skip : gen := ([], None).
Definition yield (line : string) : gen := ([line], None).
Definition raise (e : exn) : gen := ([], Some e).

Definition seq (g1 g2 : gen) : gen :=
  match g1 with
  | (l1, None) => ((l1 ++ fst g2)%list, snd g2)
  | (l1, Some e) => (l1, Some e)
  end.

(** [for x in xs: body x] *)
Fixpoint for_each {A : Type} (xs : list A) (body : A -> gen) : gen :=
  match xs with
  | [] => skip
  | x :: xs' => seq (body x) (for_each xs' body)
  end.

(** [for key, value in v.items(): body key value] *)
Definition for_items (v : result json) (body : string -> json -> gen) : gen :=
  match v with
  | inl e => raise e
  | inr v' =>
      match items v' with
      | inl e => raise e
      | inr d => for_each d (fun kv => body (fst kv) (snd kv))
      end
  end.

(** [for x in v: body x] *)
Definition for_in (v : json) (body : json -> gen) : gen :=
  match iter v with
  | inl e => raise e
  | inr xs => for_each xs body
  end.

(** [if isinstance(v, (int, float, bool)): body (float(v))] *)
Definition if_number (v : json) (body : PyFloat.float -> gen) : gen :=
  match number v with
  | None => skip
  | Some (inl e) => raise e
  | Some (inr prom_value) => body prom_value
  end.

Definition lines (g : gen) : list string := fst g.
Definition raised (g : gen) : option exn := snd g.

End Gen.

(** ** Coroutines

    A [@coroutine] method runs until it awaits the HTTP client ([yield
    self._client.fetch(...)]), is resumed with what the upstream answered,
    and ends by returning or raising. *)

Module Coro.

Import Py.

(** What the coroutine is resumed with after awaiting a fetch, once the
    body went through [json_decode] (tornado's, not part of this file): the
    decoded document, or the exception [e] that [fetch] (a non-2xx status, a
    timeout, a transport error) or [json_decode] raised, as [str(e)]. *)
Inductive upstream : Type :=
| Decoded (doc : json)
| FetchFailed (description : string)
| DecodeFailed (description : string).

Inductive coro (A : Type) : Type :=
| Return (a : A)
| Raise (e : exn)
| Await (url : string) (request_timeout : Z) (k : upstream -> coro A).

Arguments Return {A} a.
Arguments Raise {A} e.
Arguments Await {A} url request_timeout k.

Fixpoint bind {A B : Type} (c : coro A) (f : A -> coro B) : coro B :=
  match c with
  | Return a => f a
  | Raise e => Raise e
  | Await url t k => Await url t (fun r => bind (k r) f)
  end.

Definition lift {A : Type} (r : result A) : coro A :=
  match r with
  | inl e => Raise e
  | inr a => Return a
  end.

(** The upstreams and the event loop: what each URL answers and after how
    long (milliseconds).  Only awaiting takes time. *)
Record reply : Type := { latency : N; outcome : upstream }.

Definition world : Type := string -> reply.

Record event : Type :=
  { ev_url : string; ev_dispatched : N; ev_resolved : N }.

Record run_result (A : Type) : Type :=
  { trace : list event; finished : N; returned : result A }.

Arguments trace {A} r.
Arguments finished {A} r.
Arguments returned {A} r.

(** Run a coroutine started at time [now]: the fetches it dispatched, when
    it ended, and how. *)
Fixpoint run {A : Type} (w : world) (c : coro A) (now : N) : run_result A :=
  match c with
  | Return a => {| trace := []; finished := now; returned := inr a |}
  | Raise e => {| trace := []; finished := now; returned := inl e |}
  | Await url _ k =>
      let r := w url in
      let t := (now + latency r)%N in
      let rest := run w (k (outcome r)) t in
      {| trace := {| ev_url := url; ev_dispatched := now; ev_resolved := t |}
                  :: trace rest;
         finished := finished rest;
         returned := returned rest |}
  end.

End Coro.

Notation "x <- c1 ;; c2" := (Coro.bind c1 (fun x => c2))
  (at level 61, c1 at next level, right associativity).

(** ** The exporter *)

Module Exporter.

Import PyFloat Py Gen Coro.

(** *** RiakExporterServer *)

Definition DEFAULT_RIAK_STATS : string := "http://localhost:8098/stats".
Definition DEFAULT_RIAK_REPL_STATS : string :=
  "http://localhost:8098/riak-repl/stats".

Record application : Type :=
  { riak_stats : string; riak_repl_stats : string }.

(** [x or default] on an optional string: [None] and the empty string are
    false. *)
Definition or_default (x : option string) (default : string) : string :=
  match x with
  | None | Some EmptyString => default
  | Some s => s
  end.

Definition make_app (riak_stats riak_repl_stats : option string)
  : application :=
  {| riak_stats := or_default riak_stats DEFAULT_RIAK_STATS;
     riak_repl_stats := or_default riak_repl_stats DEFAULT_RIAK_REPL_STATS |}.

(** *** MetricsHandler *)

Definition DEFAULT_DATA : json := JDict [].
(** 5.0 seconds, in milliseconds. *)
Definition RIAK_REQUEST_TIMEOUT : Z := 5000.
Definition RAISE_ERROR_default : bool := true.

Record handler : Type :=
  { app : application; RAISE_ERROR : bool }.

(** A handler as the framework makes one for a request: the class
    attributes as they stand. *)
Definition MetricsHandler_new (application : application) : handler :=
  {| app := application; RAISE_ERROR := RAISE_ERROR_default |}.

Definition fetch_riak_stats (self : handler) (riak_stats : string)
  : coro json :=
  let data := DEFAULT_DATA in
  Await riak_stats RIAK_REQUEST_TIMEOUT (fun response =>
    match response with
    | Decoded data => Return data
    | FetchFailed e | DecodeFailed e =>
        if RAISE_ERROR self then Raise (HTTPError 500 e) else Return data
    end).

Definition parse_riak_stats_data (riak_stats_data : json) : gen :=
  for_items (inr riak_stats_data) (fun key value =>
    if_number value (fun prom_value =>
      let prom_str := "riak_" ++ key ++ " " ++ float_repr prom_value in
      yield prom_str)).

Definition parse_riak_repl_stats_data (riak_repl_stats_data : json) : gen :=
  for_items (inr riak_repl_stats_data) (fun key value =>
    seq (if_number value (fun prom_value =>
           let prom_str :=
             "riak_repl_" ++ key ++ " " ++ float_repr prom_value in
           yield prom_str))
   (seq (if (key =? "fullsync_coordinator")%string then
           for_in value (fun cluster =>
             match subscript value cluster with
             | inl e => raise e
             | inr (cluster, item) =>
                 for_items (inr item) (fun ckey cvalue =>
                   if_number cvalue (fun prom_value =>
                     let prom_str :=
                       "riak_repl_fullsync_coordinator_" ++ ckey
                       ++ "{cluster=" ++ dquote ++ py_str cluster ++ dquote
                       ++ "} " ++ float_repr prom_value in
                     yield prom_str))
             end)
         else skip)
        (if (key =? "realtime_queue_stats")%string then
           for_items (inr value) (fun rkey rvalue =>
             seq (if_number rvalue (fun prom_value =>
                    let prom_str :=
                      "riak_repl_realtime_queue_stats_" ++ rkey ++ " "
                      ++ float_repr prom_value in
                    yield prom_str))
                 (if (rkey =? "consumers")%string then
                    for_in rvalue (fun cluster =>
                      match subscript value cluster with
                      | inl e => raise e
                      | inr (cluster, item) =>
                          for_items (inr item) (fun ckey cvalue =>
                            if_number cvalue (fun prom_value =>
                              let prom_str :=
                                "riak_repl_realtime_queue_stats_consumers_"
                                ++ rkey ++ "{cluster=" ++ dquote
                                ++ py_str cluster ++ dquote ++ "} "
                                ++ float_repr prom_value in
                              yield prom_str))
                      end)
                  else skip))
         else skip))).

(** [sep.join(g)]: the generator is run to its end; an exception it raises
    is the join's. *)
Definition join (sep : string) (g : gen) : result string :=
  match raised g with
  | Some e => inl e
  | None => inr (String.concat sep (lines g))
  end.

(** What the handler wrote.  It never sets a status, so the framework's
    200 stands. *)
Record response : Type :=
  { status : Z; content_type : string; body : string }.

Definition get (self : handler) : coro response :=
  riak_stats_data <- fetch_riak_stats self (riak_stats (app self)) ;;
  riak_repl_stats_data <-
    fetch_riak_stats self (riak_repl_stats (app self)) ;;
  prometheus_stats <-
    lift (join newline (parse_riak_stats_data riak_stats_data)) ;;
  prometheus_repl_stats <-
    lift (join newline (parse_riak_repl_stats_data riak_repl_stats_data)) ;;
  let prometheus :=
    prometheus_stats ++ newline ++ prometheus_repl_stats ++ newline in
  Return {| status := 200; content_type := "text/plain";
            body := prometheus |}.

(** One scrape, started at time 0. *)
Definition scrape (self : handler) (w : world) : run_result response :=
  run w (get self) 0%N.

End Exporter.

(** ** Vocabulary of the properties *)

Module Spec.

Import PyFloat Py Gen Coro Exporter.

(** The double a numeric or boolean value converts to. *)
Definition to_double (v : json) : option float :=
  match number v with
  | Some (inr x) => Some x
  | _ => None
  end.

(** [v] is not a number whose conversion overflows. *)
Definition convertible (v : json) : bool :=
  match number v with
  | Some (inl _) => false
  | _ => true
  end.

Definition all_convertible (d : list (string * json)) : bool :=
  forallb (fun kv => convertible (snd kv)) d.

(** An unlabeled metric line. *)
Definition metric (prefix key : string) (x : float) : string :=
  prefix ++ key ++ " " ++ float_repr x.

(** A metric line labeled with its cluster. *)
Definition cluster_metric (prefix field cluster : string) (x : float)
  : string :=
  prefix ++ field ++ "{cluster=" ++ dquote ++ cluster ++ dquote ++ "} "
  ++ float_repr x.

(** The lines of traversal rule 1: one per numeric or boolean entry. *)
Definition scalar_lines (prefix : string) (d : list (string * json))
  : list string :=
  flat_map (fun kv =>
              match to_double (snd kv) with
              | Some x => [metric prefix (fst kv) x]
              | None => []
              end) d.

(** The two keys the replication flattener handles specially. *)
Definition special (key : string) : bool :=
  String.eqb key "fullsync_coordinator"
  || String.eqb key "realtime_queue_stats".

Definition no_special (d : list (string * json)) : bool :=
  forallb (fun kv => negb (special (fst kv))) d.

(** Number, boolean or null: what [for x in v] refuses. *)
Definition not_iterable (v : json) : bool :=
  match v with
  | JNull | JBool _ | JInt _ | JFloat _ => true
  | _ => false
  end.

Definition is_dict (v : json) : bool :=
  match v with JDict _ => true | _ => false end.

Fixpoint unique_keys (d : list (string * json)) : bool :=
  match d with
  | [] => true
  | (k, _) :: d' =>
      match dict_get k d' with
      | Some _ => false
      | None => unique_keys d'
      end
  end.

(** A mapping of fields none of which overflows. *)
Definition fields (v : json) : bool :=
  match v with
  | JDict fs => all_convertible fs
  | _ => false
  end.

(** A mapping from cluster identifier to such a mapping of fields. *)
Definition cluster_map (cs : list (string * json)) : bool :=
  unique_keys cs && forallb (fun cv => fields (snd cv)) cs.

(** The labeled lines for the fields of one cluster. *)
Definition field_lines (prefix cluster : string) (v : json) : list string :=
  match v with
  | JDict fs =>
      flat_map (fun fv =>
                  match to_double (snd fv) with
                  | Some x => [cluster_metric prefix (fst fv) cluster x]
                  | None => []
                  end) fs
  | _ => []
  end.

Definition cluster_lines (prefix : string) (cs : list (string * json))
  : list string :=
  flat_map (fun cv => field_lines prefix (fst cv) (snd cv)) cs.

(** The failure an upstream answer carries, if it is one. *)
Definition failure (u : upstream) : option string :=
  match u with
  | Decoded _ => None
  | FetchFailed e | DecodeFailed e => Some e
  end.

(** The world in which every failed fetch answers the empty document
    instead. *)
Definition substitute_empty (w : world) : world :=
  fun url =>
    {| latency := latency (w url);
       outcome := match outcome (w url) with
                  | Decoded doc => Decoded doc
                  | _ => Decoded DEFAULT_DATA
                  end |}.

(** The text is not empty and its last character is no newline. *)
Definition ends_visibly (s : string) : Prop :=
  exists t c, s = t ++ String c EmptyString /\ c <> "010"%char.

(** How many newlines end the text. *)
Fixpoint trailing_newlines (s : string) : nat :=
  match s with
  | EmptyString => O
  | String c s' =>
      let n := trailing_newlines s' in
      if Nat.eqb n (String.length s') && Ascii.eqb c "010"%char
      then S n else n
  end.

(** The document a fetch hands to the handler: the decoded one, or the
    empty one when the fetch failed and failures are not propagated. *)
Definition resumes_with (self : handler) (u : upstream) (d : json) : Prop :=
  u = Decoded d
  \/ (RAISE_ERROR self = false /\ failure u <> None /\ d = DEFAULT_DATA).

(** The fetch of [url] dispatched at [t0]. *)
Definition fetch_event (w : world) (url : string) (t0 : N) : event :=
  {| ev_url := url; ev_dispatched := t0;
     ev_resolved := (t0 + latency (w url))%N |}.

Definition ok_response (text : string) : response :=
  {| status := 200; content_type := "text/plain"; body := text |}.

(** What is written once both documents are in. *)
Definition render (d1 d2 : json) : result response :=
  match join newline (parse_riak_stats_data d1) with
  | inl e => inl e
  | inr s1 =>
      match join newline (parse_riak_repl_stats_data d2) with
      | inl e => inl e
      | inr s2 => inr (ok_response (s1 ++ newline ++ s2 ++ newline))
      end
  end.

(** A handler of the application on its default endpoints. *)
Definition default_handler (raise_error : bool) : handler :=
  {| app := make_app None None; RAISE_ERROR := raise_error |}.

(** The world in which the primary endpoint answers [a] and every other
    one [b]. *)
Definition two_upstreams (a b : reply) : world :=
  fun url => if String.eqb url DEFAULT_RIAK_STATS then a else b.

(** [isinstance(v, (int, float, bool))] *)
Definition is_number (v : json) : bool :=
  match number v with Some _ => true | None => false end.

(** One unlabeled line per entry, for the doubles [xs] of its values. *)
Definition keyed_lines (prefix : string) (d : list (string * json))
  (xs : list float) : list string :=
  List.map (fun p => metric prefix (fst (fst p)) (snd p)) (combine d xs).

End Spec.

(** ** The server and its configuration *)

Module Server.

Import Py Exporter.

Definition DEFAULT_HOST : string := "0.0.0.0".
Definition DEFAULT_PORT : Z := 8097.
Definition DEFAULT_ENDPOINT : string := "/metrics".

Record server : Type :=
  { _riak_stats : string;
    _riak_repl_stats : string;
    _address : string;
    _port : Z;
    _endpoint : string }.

(** [x or default] on an optional int: [None] and 0 are false. *)
Definition int_or_default (x : option Z) (default : Z) : Z :=
  match x with
  | None | Some 0 => default
  | Some n => n
  end.

(** [RiakExporterServer.__init__] *)
Definition init (riak_stats riak_repl_stats address : option string)
  (port : option Z) (endpoint : option string) : server :=
  {| _riak_stats := or_default riak_stats DEFAULT_RIAK_STATS;
     _riak_repl_stats := or_default riak_repl_stats DEFAULT_RIAK_REPL_STATS;
     _address := or_default address DEFAULT_HOST;
     _port := int_or_default port DEFAULT_PORT;
     _endpoint := or_default endpoint DEFAULT_ENDPOINT |}.

Inductive handler_class : Type := MainHandler | MetricsHandler.

(** [RiakExporterServer.make_app]: the routes, in order, and the
    application object the handlers read their upstream URLs from. *)
Definition make_app (self : server)
  : list (string * handler_class) * application :=
  ([("/", MainHandler); (_endpoint self, MetricsHandler)],
   {| riak_stats := _riak_stats self;
      riak_repl_stats := _riak_repl_stats self |}).

End Server.

(** ** Further vocabulary *)

Module More.

Import PyFloat Py Gen Coro Exporter Spec.

Definition failed (u : upstream) : bool :=
  match failure u with Some _ => true | None => false end.

(** The text after its first [n] characters. *)
Fixpoint drop (n : nat) (s : string) : string :=
  match n, s with
  | O, _ => s
  | S n', String _ s' => drop n' s'
  | S _, EmptyString => EmptyString
  end.

(** A primary line renamed to the replication prefix. *)
Definition reprefix (line : string) : string :=
  "riak_repl_" ++ drop 5 line.

(** How many entries are numeric or boolean. *)
Definition count_numbers (d : list (string * json)) : nat :=
  List.length (List.filter (fun kv => is_number (snd kv)) d).

(** No entry of the mapping is named [key]. *)
Definition lacks (key : string) (d : list (string * json)) : bool :=
  forallb (fun kv => negb (String.eqb (fst kv) key)) d.

End More.

(** * Properties *)

(** ** Generators *)

Module GenFacts.

Import Py Gen.

Lemma seq_skip_l g : seq skip g = g.
Proof. destruct g; reflexivity. Qed.

Lemma seq_skip_r g : seq g skip = g.
Proof.
  destruct g as [l [e|]]; cbn; [reflexivity|].
  now rewrite app_nil_r.
Qed.

Lemma seq_assoc g1 g2 g3 : seq (seq g1 g2) g3 = seq g1 (seq g2 g3).
Proof.
  destruct g1 as [l1 [e1|]]; [reflexivity|].
  destruct g2 as [l2 [e2|]]; cbn; [reflexivity|].
  now rewrite app_assoc.
Qed.

Lemma seq_ok l1 l2 r : seq (l1, None) (l2, r) = ((l1 ++ l2)%list, r).
Proof. reflexivity. Qed.

Lemma seq_raise l e g : seq (l, Some e) g = (l, Some e).
Proof. reflexivity. Qed.

Lemma lines_seq_incl g1 g2 line :
  In line (lines g1) -> In line (lines (seq g1 g2)).
Proof.
  destruct g1 as [l1 [e|]]; cbn; [easy|].
  intros H. apply in_or_app. now left.
Qed.

Lemma for_each_app {A} (xs ys : list A) body :
  for_each (xs ++ ys) body = seq (for_each xs body) (for_each ys body).
Proof.
  induction xs as [|x xs IH]; cbn [for_each app].
  - now rewrite seq_skip_l.
  - now rewrite IH, seq_assoc.
Qed.

(** When no iteration raises, the loop yields the lines of its iterations,
    joined in order. *)
Lemma for_each_ok {A} (xs : list A) body (out : A -> list string) :
  (forall x, In x xs -> body x = (out x, None)) ->
  for_each xs body = (flat_map out xs, None).
Proof.
  induction xs as [|x xs IH]; intros H; [reflexivity|].
  cbn [for_each flat_map].
  rewrite (H x (or_introl eq_refl)), IH; [reflexivity|].
  intros y Hy. apply H. now right.
Qed.

(** A property of every yielded line, whether or not the loop raises. *)
Lemma seq_lines (P : string -> Prop) g1 g2 :
  Forall P (lines g1) -> Forall P (lines g2) -> Forall P (lines (seq g1 g2)).
Proof.
  destruct g1 as [l1 [e|]]; cbn; [easy|].
  intros H1 H2. apply Forall_app. now split.
Qed.

Lemma for_each_lines {A} (P : string -> Prop) (xs : list A) body :
  (forall x, Forall P (lines (body x))) ->
  Forall P (lines (for_each xs body)).
Proof.
  intros H. induction xs as [|x xs IH]; [constructor|].
  cbn [for_each]. now apply seq_lines.
Qed.

Lemma for_items_lines (P : string -> Prop) v body :
  (forall k x, Forall P (lines (body k x))) ->
  Forall P (lines (for_items v body)).
Proof.
  intros H. unfold for_items.
  destruct v as [e|v]; [constructor|].
  destruct (items v); [constructor|].
  apply for_each_lines. intros x. apply H.
Qed.

Lemma for_in_lines (P : string -> Prop) v body :
  (forall x, Forall P (lines (body x))) ->
  Forall P (lines (for_in v body)).
Proof.
  intros H. unfold for_in.
  destruct (iter v); [constructor|].
  now apply for_each_lines.
Qed.

Lemma if_number_lines (P : string -> Prop) v body :
  (forall x, Forall P (lines (body x))) ->
  Forall P (lines (if_number v body)).
Proof.
  intros H. unfold if_number.
  destruct (number v) as [[e|x]|]; try constructor. apply H.
Qed.

End GenFacts.

(** ** Strings and the text of numbers *)

Module TextFacts.

Import PyFloat Spec.

Lemma append_assoc (a b c : string) : (a ++ b) ++ c = a ++ b ++ c.
Proof. induction a as [|x a IH]; cbn; [reflexivity | now rewrite IH]. Qed.

Lemma append_nil_r (a : string) : a ++ EmptyString = a.
Proof. induction a as [|x a IH]; cbn; [reflexivity | now rewrite IH]. Qed.

Lemma ends_visibly_app (a b : string) :
  ends_visibly b -> ends_visibly (a ++ b).
Proof.
  intros (t & c & -> & Hc). exists (a ++ t), c.
  now rewrite append_assoc.
Qed.

Lemma ends_visibly_cons (x : ascii) (b : string) :
  ends_visibly b -> ends_visibly (String x b).
Proof. apply (ends_visibly_app (String x EmptyString)). Qed.

Lemma digit_char_visible d : Digits.digit_char d <> "010"%char.
Proof.
  unfold Digits.digit_char.
  destruct (nth_in_or_default (Z.to_nat (d mod 10)) Digits.digit_chars
              "0"%char) as [H|H].
  - intros E. rewrite E in H. cbn in H.
    repeat (destruct H as [H|H]; [discriminate H|]). exact H.
  - rewrite H. discriminate.
Qed.

Lemma digits_fuel_suffix fuel n acc :
  exists t, Digits.digits_fuel fuel n acc = t ++ acc.
Proof.
  revert n acc.
  induction fuel as [|fuel IH]; intros n acc; cbn [Digits.digits_fuel].
  - now exists EmptyString.
  - destruct (n / 10 =? 0).
    + now exists (String (Digits.digit_char n) EmptyString).
    + destruct (IH (n / 10) (String (Digits.digit_char n) acc)) as [t ->].
      exists (t ++ String (Digits.digit_char n) EmptyString).
      now rewrite append_assoc.
Qed.

Lemma of_Z_ends n : ends_visibly (Digits.of_Z n).
Proof.
  unfold Digits.of_Z. cbn [Digits.digits_fuel].
  destruct (n / 10 =? 0).
  - exists EmptyString, (Digits.digit_char n).
    split; [reflexivity | apply digit_char_visible].
  - destruct (digits_fuel_suffix (Z.to_nat (Z.log2 n)) (n / 10)
                (String (Digits.digit_char n) EmptyString)) as [t ->].
    exists t, (Digits.digit_char n).
    split; [reflexivity | apply digit_char_visible].
Qed.

Lemma pad_ends w n : ends_visibly (Digits.pad w n).
Proof. apply ends_visibly_app, of_Z_ends. Qed.

Lemma literal_ends t c :
  c <> "010"%char -> ends_visibly (t ++ String c EmptyString).
Proof. intros H. now exists t, c. Qed.

Lemma layout_ends c k : ends_visibly (layout c k).
Proof.
  unfold layout.
  destruct ((k + Digits.count c <=? -4) || (16 <? k + Digits.count c)).
  - do 3 apply ends_visibly_app. apply pad_ends.
  - destruct (k + Digits.count c <=? 0).
    + apply ends_visibly_app, pad_ends.
    + destruct (Digits.count c <=? k + Digits.count c).
      * apply ends_visibly_app, (literal_ends "." "0"%char). discriminate.
      * do 2 apply ends_visibly_app. apply pad_ends.
Qed.

(** The text of a float never ends in a newline. *)
Lemma float_repr_ends x : ends_visibly (float_repr x).
Proof.
  destruct x as [s|s| |s m e]; cbn [float_repr].
  - destruct s;
      [apply (literal_ends "-0." "0"%char) | apply (literal_ends "0." "0"%char)];
      discriminate.
  - destruct s;
      [apply (literal_ends "-in" "f"%char) | apply (literal_ends "in" "f"%char)];
      discriminate.
  - apply (literal_ends "na" "n"%char). discriminate.
  - destruct (shortest m e) as [c k]. apply ends_visibly_app, layout_ends.
Qed.

Lemma concat_ends (l : list string) :
  l <> [] -> Forall ends_visibly l -> ends_visibly (String.concat newline l).
Proof.
  induction l as [|a l IH]; intros Hne Hall; [easy|].
  inversion Hall as [|? ? Ha Hl]; subst.
  destruct l as [|b l]; [exact Ha|].
  cbn [String.concat]. do 2 apply ends_visibly_app.
  apply IH; [discriminate | exact Hl].
Qed.

End TextFacts.

(** ** The flatteners *)

Module FlattenFacts.

Import PyFloat Py Gen Coro Exporter Spec GenFacts.

(** Rule 1 on one entry that does not overflow. *)
Lemma if_number_metric prefix k v :
  convertible v = true ->
  if_number v (fun x => yield (prefix ++ k ++ " " ++ float_repr x))
  = (match to_double v with
     | Some x => [metric prefix k x]
     | None => []
     end, None).
Proof.
  unfold convertible, if_number, to_double.
  destruct (number v) as [[e|x]|]; intros H;
    [discriminate | reflexivity | reflexivity].
Qed.

Lemma if_number_skip v body : number v = None -> if_number v body = skip.
Proof. unfold if_number. now intros ->. Qed.

Lemma all_convertible_in d kv :
  all_convertible d = true -> In kv d -> convertible (snd kv) = true.
Proof.
  unfold all_convertible. rewrite forallb_forall. intros H. apply H.
Qed.

(** *** The primary flattener *)

Lemma primary_app a b :
  parse_riak_stats_data (JDict (a ++ b))
  = seq (parse_riak_stats_data (JDict a)) (parse_riak_stats_data (JDict b)).
Proof. apply for_each_app. Qed.

Lemma primary_ok d :
  all_convertible d = true ->
  parse_riak_stats_data (JDict d) = (scalar_lines "riak_" d, None).
Proof.
  intros H. unfold parse_riak_stats_data, for_items, scalar_lines.
  cbn [items]. apply for_each_ok.
  intros kv Hin. apply if_number_metric.
  now apply (all_convertible_in d).
Qed.

Lemma primary_skip k v :
  number v = None -> parse_riak_stats_data (JDict [(k, v)]) = skip.
Proof.
  intros H. unfold parse_riak_stats_data, for_items.
  cbn [items for_each fst snd].
  now rewrite if_number_skip, seq_skip_l.
Qed.

(** *** The replication flattener *)

Lemma repl_app a b :
  parse_riak_repl_stats_data (JDict (a ++ b))
  = seq (parse_riak_repl_stats_data (JDict a))
        (parse_riak_repl_stats_data (JDict b)).
Proof. apply for_each_app. Qed.

Lemma repl_cons kv d :
  parse_riak_repl_stats_data (JDict (kv :: d))
  = seq (parse_riak_repl_stats_data (JDict [kv]))
        (parse_riak_repl_stats_data (JDict d)).
Proof. apply (repl_app [kv] d). Qed.

Lemma special_false k :
  special k = false ->
  (k =? "fullsync_coordinator")%string = false
  /\ (k =? "realtime_queue_stats")%string = false.
Proof. unfold special. apply orb_false_elim. Qed.

(** An entry under an ordinary key goes through rule 1 only. *)
Lemma repl_plain k v :
  special k = false ->
  parse_riak_repl_stats_data (JDict [(k, v)])
  = if_number v (fun x => yield ("riak_repl_" ++ k ++ " " ++ float_repr x)).
Proof.
  intros H. destruct (special_false k H) as [H1 H2].
  unfold parse_riak_repl_stats_data, for_items.
  cbn [items for_each fst snd]. rewrite H1, H2.
  now rewrite !seq_skip_r.
Qed.

Lemma repl_no_special d :
  no_special d = true ->
  all_convertible d = true ->
  parse_riak_repl_stats_data (JDict d) = (scalar_lines "riak_repl_" d, None).
Proof.
  induction d as [|[k v] d IH]; intros Hs Hc; [reflexivity|].
  cbn [no_special all_convertible forallb fst snd] in Hs, Hc.
  apply andb_prop in Hs as [Hk Hs]. apply andb_prop in Hc as [Hv Hc].
  apply negb_true_iff in Hk.
  rewrite repl_cons, repl_plain, if_number_metric, IH by assumption.
  reflexivity.
Qed.

Lemma for_each_map {A B} (f : A -> B) (xs : list A) body :
  for_each (List.map f xs) body = for_each xs (fun x => body (f x)).
Proof.
  induction xs as [|x xs IH]; cbn [for_each List.map];
    [reflexivity | now rewrite IH].
Qed.

Lemma unique_keys_get cs :
  unique_keys cs = true ->
  forall k v, In (k, v) cs -> dict_get k cs = Some v.
Proof.
  induction cs as [|[k0 v0] cs IH]; intros Hu k v Hin; [easy|].
  cbn [unique_keys] in Hu. cbn [dict_get].
  destruct (dict_get k0 cs) eqn:Hget; [discriminate|].
  destruct Hin as [E|Hin].
  - injection E as -> ->. now rewrite String.eqb_refl.
  - destruct (String.eqb_spec k k0) as [->|_].
    + now rewrite (IH Hu k0 v Hin) in Hget.
    + now apply IH.
Qed.

(** The fields of one cluster, as [cluster_lines] lists them. *)
Lemma field_loop prefix cluster v :
  fields v = true ->
  for_items (inr v) (fun ckey cvalue =>
    if_number cvalue (fun x =>
      yield (prefix ++ ckey ++ "{cluster=" ++ dquote ++ cluster ++ dquote
             ++ "} " ++ float_repr x)))
  = (field_lines prefix cluster v, None).
Proof.
  destruct v as [| | | | | |fs]; try discriminate.
  cbn [fields]. intros H. unfold for_items, field_lines. cbn [items].
  apply for_each_ok. intros fv Hin.
  pose proof (all_convertible_in fs fv H Hin) as Hc.
  unfold convertible, if_number, to_double in *.
  destruct (number (snd fv)) as [[e|x]|];
    [discriminate | reflexivity | reflexivity].
Qed.

Lemma cluster_loop prefix cs :
  cluster_map cs = true ->
  for_in (JDict cs) (fun cluster =>
    match subscript (JDict cs) cluster with
    | inl e => raise e
    | inr (cluster, item) =>
        for_items (inr item) (fun ckey cvalue =>
          if_number cvalue (fun x =>
            yield (prefix ++ ckey ++ "{cluster=" ++ dquote
                   ++ py_str cluster ++ dquote ++ "} " ++ float_repr x)))
    end)
  = (cluster_lines prefix cs, None).
Proof.
  unfold cluster_map. intros H. apply andb_prop in H as [Hu Hf].
  unfold for_in, cluster_lines. cbn [iter]. rewrite for_each_map.
  apply for_each_ok. intros [c v] Hin.
  unfold subscript. cbn [as_scalar getitem fst snd].
  rewrite (unique_keys_get cs Hu c v Hin). cbn [py_str].
  apply field_loop.
  rewrite forallb_forall in Hf. apply (Hf (c, v) Hin).
Qed.

Lemma repl_fullsync cs :
  cluster_map cs = true ->
  parse_riak_repl_stats_data (JDict [("fullsync_coordinator", JDict cs)])
  = (cluster_lines "riak_repl_fullsync_coordinator_" cs, None).
Proof.
  intros H. unfold parse_riak_repl_stats_data at 1, for_items at 1.
  cbn [items for_each fst snd].
  change ("fullsync_coordinator" =? "fullsync_coordinator")%string with true.
  change ("fullsync_coordinator" =? "realtime_queue_stats")%string with false.
  cbv iota. rewrite (if_number_skip (JDict cs)) by reflexivity.
  rewrite seq_skip_l, !seq_skip_r.
  now apply cluster_loop.
Qed.

(** Every line either flattener yields ends with the text of a float. *)
Lemma primary_lines_end v :
  Forall ends_visibly (lines (parse_riak_stats_data v)).
Proof.
  unfold parse_riak_stats_data.
  apply for_items_lines; intros k x.
  apply if_number_lines; intros y. repeat constructor.
  do 3 apply TextFacts.ends_visibly_app. apply TextFacts.float_repr_ends.
Qed.

End FlattenFacts.

(** ** Trailing newlines *)

Module NewlineFacts.

Import Spec TextFacts.

Lemma length_append (a b : string) :
  String.length (a ++ b) = (String.length a + String.length b)%nat.
Proof. induction a as [|x a IH]; cbn; [reflexivity | now rewrite IH]. Qed.

Lemma trailing_le s : (trailing_newlines s <= String.length s)%nat.
Proof.
  induction s as [|c s IH]; cbn [trailing_newlines String.length]; [lia|].
  destruct (Nat.eqb _ _ && Ascii.eqb _ _); lia.
Qed.

(** Text in front of a part that holds something else than newlines does
    not count. *)
Lemma trailing_app (t u : string) :
  (trailing_newlines u < String.length u)%nat ->
  trailing_newlines (t ++ u) = trailing_newlines u.
Proof.
  intros H. induction t as [|c t IH]; [reflexivity|].
  cbn [append trailing_newlines]. rewrite IH, length_append.
  replace (Nat.eqb _ _) with false; [reflexivity|].
  symmetry. apply Nat.eqb_neq. lia.
Qed.

Lemma trailing_after_visible (b tail : string) :
  ends_visibly b ->
  trailing_newlines tail = String.length tail ->
  trailing_newlines (b ++ tail) = String.length tail.
Proof.
  intros (t & c & -> & Hc) Htail.
  rewrite append_assoc. cbn [append].
  assert (E : trailing_newlines (String c tail) = String.length tail).
  { cbn [trailing_newlines]. rewrite Htail, Nat.eqb_refl.
    apply Ascii.eqb_neq in Hc. now rewrite Hc. }
  rewrite trailing_app; [exact E|].
  rewrite E. cbn [String.length]. lia.
Qed.

End NewlineFacts.

(** ** The handler *)

Module HandlerFacts.

Import PyFloat Py Gen Coro Exporter Spec.

(** With propagation off every fetch hands over a document: the one the
    world of [substitute_empty] answers. *)
Lemma substitute_resumes self w url :
  RAISE_ERROR self = false ->
  exists d, resumes_with self (outcome (w url)) d
            /\ outcome (substitute_empty w url) = Decoded d.
Proof.
  intros H. unfold substitute_empty. cbn [outcome].
  destruct (outcome (w url)) as [d|e|e].
  - exists d. split; [now left | reflexivity].
  - exists DEFAULT_DATA. split; [right; now repeat split | reflexivity].
  - exists DEFAULT_DATA. split; [right; now repeat split | reflexivity].
Qed.

(** A fetch that hands over a document lets the coroutine go on with it,
    once the upstream has answered. *)
Lemma run_fetch {A} self w url (f : json -> coro A) now d :
  resumes_with self (outcome (w url)) d ->
  run w (bind (fetch_riak_stats self url) f) now
  = let rest := run w (f d) (now + latency (w url))%N in
    {| trace := fetch_event w url now :: trace rest;
       finished := finished rest;
       returned := returned rest |}.
Proof.
  intros H. cbn [fetch_riak_stats bind run].
  destruct H as [H | (Hflag & Hfail & ->)].
  - rewrite H. reflexivity.
  - rewrite Hflag.
    destruct (outcome (w url)); [now cbn in Hfail | reflexivity | reflexivity].
Qed.

(** A failed fetch whose failure is propagated ends the coroutine. *)
Lemma run_fetch_abort {A} self w url (f : json -> coro A) now e :
  RAISE_ERROR self = true ->
  failure (outcome (w url)) = Some e ->
  run w (bind (fetch_riak_stats self url) f) now
  = {| trace := [fetch_event w url now];
       finished := (now + latency (w url))%N;
       returned := inl (HTTPError 500 e) |}.
Proof.
  intros Hflag H. cbn [fetch_riak_stats bind run]. rewrite Hflag.
  destruct (outcome (w url)); cbn in H;
    [discriminate | injection H as -> | injection H as ->]; reflexivity.
Qed.

Lemma scrape_documents self w d1 d2 :
  resumes_with self (outcome (w (riak_stats (app self)))) d1 ->
  resumes_with self (outcome (w (riak_repl_stats (app self)))) d2 ->
  scrape self w
  = {| trace :=
         [fetch_event w (riak_stats (app self)) 0;
          fetch_event w (riak_repl_stats (app self))
            (latency (w (riak_stats (app self))))];
       finished := (latency (w (riak_stats (app self)))
                    + latency (w (riak_repl_stats (app self))))%N;
       returned := render d1 d2 |}.
Proof.
  intros H1 H2. unfold scrape, get.
  rewrite (run_fetch self w _ _ 0%N d1 H1). cbv zeta.
  rewrite (run_fetch self w _ _ _ d2 H2). cbv zeta.
  rewrite N.add_0_l. unfold render.
  destruct (join newline (parse_riak_stats_data d1)) as [e|s1];
    [reflexivity|].
  destruct (join newline (parse_riak_repl_stats_data d2)) as [e|s2];
    reflexivity.
Qed.

End HandlerFacts.

(** ** Conversion of integers to floats *)

Module FloatFacts.

Import PyFloat.

Lemma iter_pos_nat {A} (f : A -> A) p x :
  iter_pos f p x = Nat.iter (Pos.to_nat p) f x.
Proof.
  revert x. induction p as [p IH|p IH|]; intros x; cbn [iter_pos].
  - rewrite !IH, Pos2Nat.inj_xI.
    replace (S (2 * Pos.to_nat p)) with (Pos.to_nat p + (Pos.to_nat p + 1))%nat
      by lia.
    rewrite !Nat.iter_add. reflexivity.
  - rewrite !IH, Pos2Nat.inj_xO.
    replace (2 * Pos.to_nat p)%nat with (Pos.to_nat p + Pos.to_nat p)%nat
      by lia.
    now rewrite Nat.iter_add.
  - reflexivity.
Qed.

Lemma shr_1_spec r :
  0 <= shr_m r ->
  shr_m (shr_1 r) = shr_m r / 2 /\ shr_r (shr_1 r) = Z.odd (shr_m r).
Proof.
  destruct r as [m r s]. cbn [shr_m]. intros H.
  destruct m as [|[p|p|]|p]; cbn [shr_1 shr_m shr_r].
  - split; reflexivity.
  - split; [|reflexivity]. rewrite Pos2Z.inj_xI.
    apply (Z.div_unique _ 2 _ 1); lia.
  - split; [|reflexivity]. change (Zpos p~0) with (2 * Zpos p).
    apply (Z.div_unique _ 2 _ 0); lia.
  - split; reflexivity.
  - lia.
Qed.

Lemma shr_iter_spec (k : nat) r :
  0 <= shr_m r ->
  shr_m (Nat.iter (S k) shr_1 r) = shr_m r / 2 ^ Z.of_nat (S k)
  /\ shr_r (Nat.iter (S k) shr_1 r) = Z.odd (shr_m r / 2 ^ Z.of_nat k).
Proof.
  intros H. induction k as [|k [IHm IHr]].
  - change (Nat.iter 1 shr_1 r) with (shr_1 r).
    destruct (shr_1_spec r H) as [E1 E2].
    rewrite E1, E2. change (2 ^ Z.of_nat 1) with 2. change (2 ^ Z.of_nat 0) with 1.
    now rewrite Z.div_1_r.
  - change (Nat.iter (S (S k)) shr_1 r) with (shr_1 (Nat.iter (S k) shr_1 r)).
    assert (Hn : 0 <= shr_m (Nat.iter (S k) shr_1 r)).
    { rewrite IHm. apply Z.div_pos; [exact H | apply Z.pow_pos_nonneg; lia]. }
    destruct (shr_1_spec _ Hn) as [E1 E2]. rewrite E1, E2, IHm. split; [|reflexivity].
    rewrite Z.div_div by (try apply Z.pow_pos_nonneg; lia).
    f_equal. rewrite (Nat2Z.inj_succ (S k)), Z.pow_succ_r by lia. lia.
Qed.

Lemma digits_bounds m :
  2 ^ (Zpos (digits2_pos m) - 1) <= Zpos m < 2 ^ Zpos (digits2_pos m).
Proof.
  induction m as [m IH|m IH|]; cbn [digits2_pos].
  - rewrite Pos2Z.inj_succ, Pos2Z.inj_xI.
    replace (Z.succ (Zpos (digits2_pos m)) - 1) with (Z.succ (Zpos (digits2_pos m) - 1)) by lia.
    rewrite !Z.pow_succ_r by lia. lia.
  - rewrite Pos2Z.inj_succ. change (Zpos m~0) with (2 * Zpos m).
    replace (Z.succ (Zpos (digits2_pos m)) - 1) with (Z.succ (Zpos (digits2_pos m) - 1)) by lia.
    rewrite !Z.pow_succ_r by lia. lia.
  - cbn. lia.
Qed.

Lemma shr_by rec e n :
  0 < n -> 0 <= shr_m rec ->
  exists rec',
    shr rec e n = (rec', e + n)
    /\ shr_m rec' = shr_m rec / 2 ^ n
    /\ shr_r rec' = Z.odd (shr_m rec / 2 ^ (n - 1)).
Proof.
  intros Hn Hm. destruct n as [|p|p]; try lia.
  cbn [shr]. rewrite iter_pos_nat.
  destruct (Pos2Nat.is_succ p) as [k Hk]. rewrite Hk.
  eexists. split; [reflexivity|].
  destruct (shr_iter_spec k rec Hm) as [E1 E2].
  assert (Hp : Z.of_nat (S k) = Zpos p) by (rewrite <- Hk; apply positive_nat_Z).
  rewrite E1, E2, Hp. split; [reflexivity|].
  replace (Zpos p - 1) with (Z.of_nat k) by lia. reflexivity.
Qed.

Lemma shr_fexp_exact mx e :
  -1074 <= Zdigits2 mx + e - 53 ->
  shr_fexp 53 1024 mx e loc_Exact
  = shr {| shr_m := mx; shr_r := false; shr_s := false |} e
        (Zdigits2 mx - 53).
Proof.
  intros H. unfold shr_fexp, fexp, emin. cbn [shr_record_of_loc].
  rewrite Z.max_l by lia. f_equal. lia.
Qed.

Lemma round_bounds mx lx :
  mx <= round_nearest_even mx lx <= mx + 1.
Proof.
  destruct lx as [|[]]; cbn [round_nearest_even]; try lia.
  destruct (Z.even mx); lia.
Qed.

Lemma round_up_at_half mx s :
  Z.odd mx = true ->
  round_nearest_even mx
    (loc_of_shr_record {| shr_m := mx; shr_r := true; shr_s := s |})
  = mx + 1.
Proof.
  intros H. destruct s; cbn [loc_of_shr_record round_nearest_even];
    [reflexivity|].
  rewrite <- Z.negb_odd, H. reflexivity.
Qed.

Lemma digits_between q lo hi :
  2 ^ lo <= Zpos q < 2 ^ hi -> 0 <= lo ->
  lo < Zpos (digits2_pos q) <= hi.
Proof.
  intros [H1 H2] Hlo. pose proof (digits_bounds q) as [B1 B2]. split.
  - apply (Z.pow_lt_mono_r_iff 2); lia.
  - assert (Zpos (digits2_pos q) - 1 < hi); [|lia].
    apply (Z.pow_lt_mono_r_iff 2); try lia.
    destruct (Z.le_gt_cases 0 hi); [assumption|].
    rewrite (Z.pow_neg_r 2 hi) in H2 by assumption. lia.
Qed.

Lemma top_mantissa m :
  2 ^ 1024 - 2 ^ 970 <= m < 2 ^ 1024 ->
  m / 2 ^ 971 = 2 ^ 53 - 1 /\ Z.odd (m / 2 ^ 970) = true.
Proof.
  intros [H1 H2].
  assert (E1 : m / 2 ^ 971 = 2 ^ 53 - 1).
  { apply Z.le_antisymm.
    - assert (m / 2 ^ 971 < 2 ^ 53); [|lia].
      apply Z.div_lt_upper_bound; [reflexivity|].
      now rewrite <- Z.pow_add_r by lia.
    - apply Z.div_le_lower_bound; [reflexivity|].
      replace (2 ^ 971 * (2 ^ 53 - 1)) with (2 ^ 1024 - 2 ^ 971)
        by (vm_compute; reflexivity).
      assert (2 ^ 970 <= 2 ^ 971) by (vm_compute; discriminate). lia. }
  assert (E2 : m / 2 ^ 970 = 2 ^ 54 - 1).
  { apply Z.le_antisymm.
    - assert (m / 2 ^ 970 < 2 ^ 54); [|lia].
      apply Z.div_lt_upper_bound; [reflexivity|].
      now rewrite <- Z.pow_add_r by lia.
    - apply Z.div_le_lower_bound; [reflexivity|].
      replace (2 ^ 970 * (2 ^ 54 - 1)) with (2 ^ 1024 - 2 ^ 970)
        by (vm_compute; reflexivity).
      lia. }
  split; [exact E1|]. rewrite E2. reflexivity.
Qed.

Lemma round_overflows s m :
  2 ^ 1024 - 2 ^ 970 <= Zpos m ->
  binary_round 53 1024 s m 0 = S754_infinity s.
Proof.
  intros H.
  pose proof (digits_bounds m) as [B1 B2].
  remember (Zpos (digits2_pos m)) as d eqn:Ed.
  assert (Hd : 1024 <= d).
  { destruct (Z.le_gt_cases 1024 d) as [|Hlt]; [assumption|].
    assert (Hp : 2 ^ d <= 2 ^ 1023) by (apply Z.pow_le_mono_r; lia).
    assert (Hq : 2 ^ 1023 < 2 ^ 1024 - 2 ^ 970) by (vm_compute; reflexivity).
    lia. }
  unfold binary_round. rewrite <- Ed.
  replace (fexp 53 1024 (d + 0)) with (d - 53)
    by (unfold fexp, emin; lia).
  unfold shl_align.
  assert (Hs : match d - 53 - 0 with
               | Zneg p => (Pos.iter xO m p, d - 53)
               | _ => (m, 0)
               end = (m, 0)).
  { destruct (d - 53 - 0) eqn:E; try reflexivity. lia. }
  rewrite Hs. clear Hs. unfold binary_round_aux.
  rewrite shr_fexp_exact by (cbn [Zdigits2]; lia).
  cbn [Zdigits2]. rewrite <- Ed.
  destruct (shr_by {| shr_m := Zpos m; shr_r := false; shr_s := false |}
              0 (d - 53)) as (rec1 & E1 & M1 & R1);
    [lia | cbn [shr_m]; lia |].
  rewrite E1. cbn [shr_m] in M1, R1.
  assert (Hm1 : 2 ^ 52 <= shr_m rec1 < 2 ^ 53).
  { rewrite M1. split.
    - apply Z.div_le_lower_bound; [apply Z.pow_pos_nonneg; lia|].
      rewrite <- Z.pow_add_r by lia.
      now replace (d - 53 + 52) with (d - 1) by lia.
    - apply Z.div_lt_upper_bound; [apply Z.pow_pos_nonneg; lia|].
      rewrite <- Z.pow_add_r by lia.
      now replace (d - 53 + 53) with d by lia. }
  pose proof (round_bounds (shr_m rec1) (loc_of_shr_record rec1)) as Hr.
  remember (round_nearest_even (shr_m rec1) (loc_of_shr_record rec1))
    as m1 eqn:Em1.
  assert (P52 : 0 < 2 ^ 52) by reflexivity.
  destruct m1 as [|q|q]; try lia.
  assert (Hq : 2 ^ 52 <= Zpos q < 2 ^ 54).
  { assert (2 ^ 53 + 1 < 2 ^ 54) by reflexivity. lia. }
  pose proof (digits_between q 52 54 Hq ltac:(lia)) as HD.
  pose proof (digits_bounds q) as [Q1 Q2].
  rewrite shr_fexp_exact by (cbn [Zdigits2]; lia).
  cbn [Zdigits2].
  assert (HD' : Zpos (digits2_pos q) = 53 \/ Zpos (digits2_pos q) = 54)
    by lia.
  destruct HD' as [D|D]; rewrite D in *.
  - change (53 - 53) with 0. cbn [shr shr_m].
    destruct (Z.le_gt_cases (0 + (d - 53)) (1024 - 53)) as [Hle|Hgt].
    + exfalso. assert (Hd4 : d = 1024) by lia. clear Ed. subst d.
      destruct (top_mantissa (Zpos m)) as [T1 T2]; [split; assumption|].
      change (1024 - 53) with 971 in M1. change (1024 - 53 - 1) with 970 in R1.
      rewrite T1 in M1. rewrite T2 in R1.
      destruct rec1 as [mm rr ss]. cbn [shr_m shr_r] in *. subst mm rr.
      rewrite round_up_at_half in Em1 by reflexivity.
      change (2 ^ 53 - 1 + 1) with (2 ^ 53) in Em1.
      rewrite <- Em1 in Q2.
      revert Q2. apply Z.lt_irrefl.
    + apply Z.leb_gt in Hgt. now rewrite Hgt.
  - change (54 - 53) with 1.
    destruct (shr_by {| shr_m := Zpos q; shr_r := false; shr_s := false |}
                (0 + (d - 53)) 1) as (rec2 & E2 & M2 & R2);
      [lia | cbn [shr_m]; lia |].
    rewrite E2. cbn [shr_m] in M2. rewrite M2.
    change (54 - 1) with 53 in Q1.
    assert (Hh : 2 ^ 52 <= Zpos q / 2 ^ 1).
    { apply Z.div_le_lower_bound; [reflexivity|].
      now change (2 ^ 1 * 2 ^ 52) with (2 ^ 53). }
    destruct (Zpos q / 2 ^ 1) as [|h|h]; try lia.
    assert (Hgt : 1024 - 53 < 0 + (d - 53) + 1) by lia.
    apply Z.leb_gt in Hgt. now rewrite Hgt.
Qed.

(** [float(n)] raises OverflowError on every integer whose magnitude
    reaches the midpoint between the largest double and [2 ^ 1024]. *)
Lemma of_int_overflows n :
  2 ^ 1024 - 2 ^ 970 <= Z.abs n -> of_int n = None.
Proof.
  intros H. unfold of_int, prec, emax.
  destruct n as [|m|m]; cbn [binary_normalize Z.abs] in *.
  - exfalso. revert H. apply Z.lt_nge. reflexivity.
  - now rewrite round_overflows.
  - now rewrite round_overflows.
Qed.

End FloatFacts.

(** ** Single entries of a document *)

Module EntryFacts.

Import PyFloat Py Gen Coro Exporter Spec More GenFacts FlattenFacts.

Lemma number_error v e : number v = Some (inl e) -> e = OverflowError.
Proof.
  destruct v as [|b|n|x|s|l|d]; cbn [number]; try discriminate.
  - destruct (of_int (if b then 1 else 0)); intros H; now inversion H.
  - destruct (of_int n); intros H; now inversion H.
Qed.

Lemma if_number_overflow v body :
  convertible v = false -> if_number v body = raise OverflowError.
Proof.
  unfold convertible, if_number.
  destruct (number v) as [[e|x]|] eqn:E; try discriminate.
  intros _. now rewrite (number_error v e E).
Qed.

Lemma primary_overflow k v :
  convertible v = false ->
  parse_riak_stats_data (JDict [(k, v)]) = raise OverflowError.
Proof.
  intros H. unfold parse_riak_stats_data, for_items.
  cbn [items for_each fst snd]. now rewrite if_number_overflow.
Qed.

Lemma repl_overflow k v :
  convertible v = false ->
  parse_riak_repl_stats_data (JDict [(k, v)]) = raise OverflowError.
Proof.
  intros H. unfold parse_riak_repl_stats_data, for_items.
  cbn [items for_each fst snd]. now rewrite if_number_overflow.
Qed.

Lemma lacks_in key d kv :
  lacks key d = true -> In kv d -> (fst kv =? key)%string = false.
Proof.
  unfold lacks. rewrite forallb_forall. intros H Hin.
  now apply negb_true_iff, H.
Qed.

(** The loop over the fields of [realtime_queue_stats], on fields none of
    which is named [consumers]. *)
Lemma realtime_loop (value : json) fs :
  lacks "consumers" fs = true ->
  all_convertible fs = true ->
  for_each fs (fun kv =>
    seq (if_number (snd kv) (fun x =>
           yield ("riak_repl_realtime_queue_stats_" ++ fst kv ++ " "
                  ++ float_repr x)))
        (if (fst kv =? "consumers")%string then
           for_in (snd kv) (fun cluster =>
             match subscript value cluster with
             | inl e => raise e
             | inr (cluster, item) =>
                 for_items (inr item) (fun ckey cvalue =>
                   if_number cvalue (fun x =>
                     yield ("riak_repl_realtime_queue_stats_consumers_"
                            ++ fst kv ++ "{cluster=" ++ dquote
                            ++ py_str cluster ++ dquote ++ "} "
                            ++ float_repr x)))
             end)
         else skip))
  = (scalar_lines "riak_repl_realtime_queue_stats_" fs, None).
Proof.
  intros Hl Hc. unfold scalar_lines. apply for_each_ok.
  intros kv Hin. rewrite (lacks_in "consumers" fs kv Hl Hin), seq_skip_r.
  apply if_number_metric. now apply (all_convertible_in fs).
Qed.

Lemma realtime_entry fs :
  parse_riak_repl_stats_data (JDict [("realtime_queue_stats", JDict fs)])
  = for_each fs (fun kv =>
      seq (if_number (snd kv) (fun x =>
             yield ("riak_repl_realtime_queue_stats_" ++ fst kv ++ " "
                    ++ float_repr x)))
          (if (fst kv =? "consumers")%string then
             for_in (snd kv) (fun cluster =>
               match subscript (JDict fs) cluster with
               | inl e => raise e
               | inr (cluster, item) =>
                   for_items (inr item) (fun ckey cvalue =>
                     if_number cvalue (fun x =>
                       yield ("riak_repl_realtime_queue_stats_consumers_"
                              ++ fst kv ++ "{cluster=" ++ dquote
                              ++ py_str cluster ++ dquote ++ "} "
                              ++ float_repr x)))
               end)
           else skip)).
Proof.
  unfold parse_riak_repl_stats_data at 1, for_items at 1.
  cbn [items for_each fst snd].
  change ("realtime_queue_stats" =? "fullsync_coordinator")%string with false.
  change ("realtime_queue_stats" =? "realtime_queue_stats")%string with true.
  cbv iota. rewrite (if_number_skip (JDict fs)) by reflexivity.
  rewrite !seq_skip_l, seq_skip_r. reflexivity.
Qed.

Lemma fullsync_entry v :
  parse_riak_repl_stats_data (JDict [("fullsync_coordinator", v)])
  = seq (if_number v (fun x =>
           yield ("riak_repl_" ++ "fullsync_coordinator" ++ " "
                  ++ float_repr x)))
        (for_in v (fun cluster =>
           match subscript v cluster with
           | inl e => raise e
           | inr (cluster, item) =>
               for_items (inr item) (fun ckey cvalue =>
                 if_number cvalue (fun x =>
                   yield ("riak_repl_fullsync_coordinator_" ++ ckey
                          ++ "{cluster=" ++ dquote ++ py_str cluster
                          ++ dquote ++ "} " ++ float_repr x)))
           end)).
Proof.
  unfold parse_riak_repl_stats_data at 1, for_items at 1.
  cbn [items for_each fst snd].
  change ("fullsync_coordinator" =? "fullsync_coordinator")%string with true.
  change ("fullsync_coordinator" =? "realtime_queue_stats")%string with false.
  cbv iota. now rewrite !seq_skip_r.
Qed.

End EntryFacts.

(** ** The primary flattener on whole documents *)

Import PyFloat Py Gen Coro Exporter Spec.
Import GenFacts TextFacts NewlineFacts FlattenFacts HandlerFacts.
Import More FloatFacts EntryFacts.

Lemma keyed_lines_scalar prefix d xs :
  Forall2 (fun kv x => to_double (snd kv) = Some x) d xs ->
  all_convertible d = true /\ scalar_lines prefix d = keyed_lines prefix d xs.
Proof.
  induction 1 as [|[k v] x d xs Hx _ [IHc IHl]]; [now split|].
  cbn [snd] in Hx. split.
  - cbn [all_convertible forallb snd]. fold (all_convertible d).
    rewrite IHc, andb_true_r.
    unfold convertible, to_double in *.
    now destruct (number v) as [[e|y]|].
  - unfold scalar_lines, keyed_lines in *.
    cbn [flat_map combine List.map fst snd]. now rewrite Hx, IHl.
Qed.

Lemma keyed_lines_length prefix d xs :
  Forall2 (fun kv x => to_double (snd kv) = Some x) d xs ->
  List.length (keyed_lines prefix d xs) = List.length d.
Proof.
  intros H. unfold keyed_lines.
  rewrite length_map, length_combine, <- (Forall2_length H). lia.
Qed.

Lemma bool_text b :
  exists x, to_double (JBool b) = Some x
            /\ float_repr x = if b then "1.0" else "0.0".
Proof.
  destruct b.
  - exists (S754_finite false 4503599627370496 (-52)).
    split; vm_compute; reflexivity.
  - exists (S754_zero false). split; vm_compute; reflexivity.
Qed.

(** C4, as amended.  For every document whose top-level values are all
    numeric or boolean and have a double value (no integer overflows
    [float()]), the primary flattener raises nothing and yields exactly one
    line per top-level key, [riak_<key> <value>] with no label, in the
    order of the document; the replication flattener does the same with the
    prefix [riak_repl] when no key is one of its two special keys. *)
Theorem one_metric_per_numeric_key d xs :
  Forall2 (fun kv x => to_double (snd kv) = Some x) d xs ->
  parse_riak_stats_data (JDict d) = (keyed_lines "riak_" d xs, None)
  /\ List.length (keyed_lines "riak_" d xs) = List.length d
  /\ (no_special d = true ->
      parse_riak_repl_stats_data (JDict d)
      = (keyed_lines "riak_repl_" d xs, None)).
Proof.
  intros H.
  destruct (keyed_lines_scalar "riak_" d xs H) as [Hc Hl].
  destruct (keyed_lines_scalar "riak_repl_" d xs H) as [_ Hr].
  repeat split.
  - now rewrite primary_ok, Hl.
  - now apply keyed_lines_length.
  - intros Hs. now rewrite repl_no_special, Hr.
Qed.

Lemma one_metric_per_numeric_key_witness :
  Forall2 (fun kv x => to_double (snd kv) = Some x)
    [("vnode_gets", JInt 42); ("connected", JBool true)]
    [S754_finite false 5910974510923776 (-47);
     S754_finite false 4503599627370496 (-52)]
  /\ parse_riak_stats_data
       (JDict [("vnode_gets", JInt 42); ("connected", JBool true)])
     = (["riak_vnode_gets 42.0"; "riak_connected 1.0"], None).
Proof.
  assert (H : Forall2 (fun kv x => to_double (snd kv) = Some x)
                [("vnode_gets", JInt 42); ("connected", JBool true)]
                [S754_finite false 5910974510923776 (-47);
                 S754_finite false 4503599627370496 (-52)])
    by (repeat constructor).
  split; [exact H|].
  exact (eq_trans (proj1 (one_metric_per_numeric_key _ _ H)) eq_refl).
Defined.

(** C4 fails as stated: an integer beyond the range of a double is
    numeric, yet [float()] raises on it and no line is yielded. *)
Lemma numeric_key_without_metric :
  let d := [("ring_size", JInt (2 ^ 1024))] in
  forallb (fun kv => is_number (snd kv)) d = true
  /\ parse_riak_stats_data (JDict d) = ([], Some OverflowError)
  /\ List.length (lines (parse_riak_stats_data (JDict d))) <> List.length d.
Proof. vm_compute. repeat split; discriminate. Qed.

(** C5, as amended.  For every document none of whose integers overflows
    [float()] and that holds a top-level boolean under [k], the primary
    flattener raises nothing and the line for [k] reads [riak_<k> 1.0] for
    true and [riak_<k> 0.0] for false. *)
Theorem boolean_rendering d k b :
  all_convertible d = true ->
  In (k, JBool b) d ->
  exists ls,
    parse_riak_stats_data (JDict d) = (ls, None)
    /\ In ("riak_" ++ k ++ " " ++ (if b then "1.0" else "0.0")) ls.
Proof.
  intros Hc Hin. exists (scalar_lines "riak_" d).
  split; [now apply primary_ok|].
  unfold scalar_lines. apply in_flat_map. exists (k, JBool b).
  split; [exact Hin|]. cbn [fst snd].
  destruct (bool_text b) as (x & -> & Hx).
  left. unfold metric. now rewrite Hx.
Qed.

Lemma boolean_rendering_witness :
  all_convertible [("vnode_gets", JInt 42); ("connected", JBool false)] = true
  /\ In ("connected", JBool false)
        [("vnode_gets", JInt 42); ("connected", JBool false)]
  /\ exists ls,
       parse_riak_stats_data
         (JDict [("vnode_gets", JInt 42); ("connected", JBool false)])
       = (ls, None)
       /\ In "riak_connected 0.0" ls.
Proof.
  assert (Hc : all_convertible
                 [("vnode_gets", JInt 42); ("connected", JBool false)] = true)
    by (vm_compute; reflexivity).
  assert (Hin : In ("connected", JBool false)
                  [("vnode_gets", JInt 42); ("connected", JBool false)])
    by (simpl; right; left; reflexivity).
  split; [exact Hc|]. split; [exact Hin|].
  exact (boolean_rendering _ "connected" false Hc Hin).
Defined.

(** C5 fails as stated: the line shows [1.0], not [1]; and a boolean that
    follows an overflowing integer gets no line at all. *)
Lemma boolean_rendered_with_fraction :
  parse_riak_stats_data (JDict [("connected", JBool true)])
  = (["riak_connected 1.0"], None)
  /\ ~ In "riak_connected 1"
       (lines (parse_riak_stats_data (JDict [("connected", JBool true)])))
  /\ parse_riak_stats_data
       (JDict [("ring_size", JInt (2 ^ 1024)); ("connected", JBool true)])
     = ([], Some OverflowError).
Proof.
  split; [vm_compute; reflexivity|].
  split; [|vm_compute; reflexivity].
  vm_compute. intros [H|[]]. discriminate H.
Qed.

(** C9, as amended.  For every mapping from string keys to JSON values none
    of whose top-level integers overflows [float()], the primary flattener
    ends without raising and yields the rule-1 lines of the top-level
    numeric and boolean entries only; an entry whose value is neither
    numeric nor boolean (string, null, array, object of any depth) changes
    nothing, wherever it stands.  On a top-level integer of magnitude
    [2 ^ 1024 - 2 ^ 970] or more, the entries before it being free of
    overflow, it raises OverflowError, having yielded the lines of those
    entries only. *)
Theorem primary_flattener_total d :
  (all_convertible d = true ->
   parse_riak_stats_data (JDict d) = (scalar_lines "riak_" d, None)
   /\ (forall pre k v post,
         d = (pre ++ (k, v) :: post)%list ->
         is_number v = false ->
         parse_riak_stats_data (JDict d)
         = parse_riak_stats_data (JDict (pre ++ post))))
  /\ (forall pre k n post,
        d = (pre ++ (k, JInt n) :: post)%list ->
        all_convertible pre = true ->
        2 ^ 1024 - 2 ^ 970 <= Z.abs n ->
        parse_riak_stats_data (JDict d)
        = (scalar_lines "riak_" pre, Some OverflowError)).
Proof.
  split.
  - intros Hc. split; [now apply primary_ok|].
    intros pre k v post -> Hv.
    assert (Hn : number v = None).
    { unfold is_number in Hv. now destruct (number v). }
    change (pre ++ (k, v) :: post)%list with (pre ++ [(k, v)] ++ post)%list.
    rewrite !primary_app, (primary_skip k v Hn), seq_skip_l.
    reflexivity.
  - intros pre k n post -> Hpre Hn.
    assert (Hv : convertible (JInt n) = false).
    { unfold convertible. cbn [number]. now rewrite (of_int_overflows n Hn). }
    change (pre ++ (k, JInt n) :: post)%list
      with (pre ++ [(k, JInt n)] ++ post)%list.
    rewrite !primary_app, (primary_ok pre Hpre), (primary_overflow k _ Hv).
    cbn. now rewrite app_nil_r.
Qed.

Lemma primary_flattener_total_witness :
  let d := [("vnode_gets", JInt 42);
            ("ring_members", JList [JStr "a"; JStr "b"]);
            ("nodename", JStr "riak@127.0.0.1");
            ("disk", JList [JDict [("id", JStr "/"); ("size", JInt 10)]]);
            ("storage_backend", JNull)] in
  let d' := [("vnode_gets", JInt 42);
             ("memory_total", JInt (- (2 ^ 1024 - 2 ^ 970)));
             ("vnode_puts", JInt 7)] in
  (all_convertible d = true
   /\ parse_riak_stats_data (JDict d) = (["riak_vnode_gets 42.0"], None))
  /\ (all_convertible [("vnode_gets", JInt 42)] = true
      /\ 2 ^ 1024 - 2 ^ 970 <= Z.abs (- (2 ^ 1024 - 2 ^ 970))
      /\ parse_riak_stats_data (JDict d')
         = (["riak_vnode_gets 42.0"], Some OverflowError)).
Proof.
  split.
  - split; [vm_compute; reflexivity|].
    refine (eq_trans (proj1 (proj1 (primary_flattener_total _) _)) _);
      vm_compute; reflexivity.
  - assert (Hp : all_convertible [("vnode_gets", JInt 42)] = true)
      by (vm_compute; reflexivity).
    assert (Hn : 2 ^ 1024 - 2 ^ 970 <= Z.abs (- (2 ^ 1024 - 2 ^ 970)))
      by (vm_compute; discriminate).
    split; [exact Hp|]. split; [exact Hn|].
    refine (eq_trans
              (proj2 (primary_flattener_total _)
                 [("vnode_gets", JInt 42)] "memory_total"
                 (- (2 ^ 1024 - 2 ^ 970)) [("vnode_puts", JInt 7)]
                 eq_refl Hp Hn) _).
    vm_compute; reflexivity.
Defined.

(** C9 fails as stated: Python integers are unbounded, and [float()]
    raises OverflowError on one that no double can hold. *)
Lemma primary_flattener_raises_on_huge_integer :
  raised (parse_riak_stats_data
            (JDict [("vnode_gets", JInt 42);
                    ("memory_total", JInt (10 ^ 400))]))
  = Some OverflowError
  /\ raised (parse_riak_stats_data
               (JDict [("vnode_gets", JInt 42);
                       ("memory_total", JInt (10 ^ 400))])) <> None.
Proof. split; vm_compute; [reflexivity | discriminate]. Qed.

(** ** The replication flattener on whole documents *)

Lemma raised_seq g1 g2 :
  raised (seq g1 g2)
  = match raised g1 with Some e => Some e | None => raised g2 end.
Proof. now destruct g1 as [l1 [e|]]. Qed.

Lemma raised_after_number v body g :
  raised g <> None ->
  raised (seq (if_number v body) g) <> None.
Proof.
  intros H. rewrite raised_seq.
  destruct (raised (if_number v body)); [discriminate | exact H].
Qed.

Lemma not_iterable_raises v body :
  not_iterable v = true -> for_in v body = raise TypeError.
Proof. now destruct v. Qed.

Lemma fullsync_scalar_raises v :
  not_iterable v = true ->
  raised (parse_riak_repl_stats_data (JDict [("fullsync_coordinator", v)]))
  <> None.
Proof.
  intros H. unfold parse_riak_repl_stats_data, for_items.
  cbn [items for_each fst snd].
  change ("fullsync_coordinator" =? "fullsync_coordinator")%string with true.
  cbv iota. rewrite (not_iterable_raises v _ H), seq_skip_r.
  apply raised_after_number. discriminate.
Qed.











Lemma cluster_lines_in prefix cs c fs f v x :
  In (c, JDict fs) cs -> In (f, v) fs -> to_double v = Some x ->
  In (cluster_metric prefix f c x) (cluster_lines prefix cs).
Proof.
  intros Hc Hf Hx. unfold cluster_lines.
  apply in_flat_map. exists (c, JDict fs). split; [exact Hc|].
  cbn [fst snd field_lines]. apply in_flat_map. exists (f, v).
  split; [exact Hf|]. cbn [fst snd]. rewrite Hx. now left.
Qed.

(** C8, as amended.  For every replication document in which flattening
    the entries before [fullsync_coordinator] raises nothing, and whose
    [fullsync_coordinator] value maps cluster identifiers to mappings of
    fields none of which overflows [float()], the flattener yields, after
    the lines of the earlier entries and in document order, for each
    cluster and each numeric or boolean field the line
    [riak_repl_fullsync_coordinator_<field>{cluster="<cluster>"} <value>];
    the document of scenario B yields exactly its one line. *)
Theorem fullsync_coordinator_metrics pre cs post :
  raised (parse_riak_repl_stats_data (JDict pre)) = None ->
  cluster_map cs = true ->
  (exists rest,
     lines (parse_riak_repl_stats_data
              (JDict (pre ++ ("fullsync_coordinator", JDict cs) :: post)))
     = (lines (parse_riak_repl_stats_data (JDict pre))
        ++ cluster_lines "riak_repl_fullsync_coordinator_" cs ++ rest)%list)
  /\ (forall c fs f v x,
        In (c, JDict fs) cs -> In (f, v) fs -> to_double v = Some x ->
        In (cluster_metric "riak_repl_fullsync_coordinator_" f c x)
           (lines (parse_riak_repl_stats_data
                     (JDict (pre ++ ("fullsync_coordinator", JDict cs)
                                    :: post)))))
  /\ parse_riak_repl_stats_data
       (JDict [("fullsync_coordinator",
                JDict [("clusterA", JDict [("queue_length", JInt 3)])])])
     = (["riak_repl_fullsync_coordinator_queue_length{cluster=" ++ dquote
         ++ "clusterA" ++ dquote ++ "} 3.0"], None).
Proof.
  intros Hpre Hcs.
  assert (E : lines (parse_riak_repl_stats_data
                       (JDict (pre ++ ("fullsync_coordinator", JDict cs)
                                      :: post)))
              = (lines (parse_riak_repl_stats_data (JDict pre))
                 ++ cluster_lines "riak_repl_fullsync_coordinator_" cs
                 ++ lines (parse_riak_repl_stats_data (JDict post)))%list).
  { change (pre ++ ("fullsync_coordinator", JDict cs) :: post)%list
      with (pre ++ [("fullsync_coordinator", JDict cs)] ++ post)%list.
    rewrite !repl_app, (repl_fullsync cs Hcs).
    destruct (parse_riak_repl_stats_data (JDict pre)) as [lp rp].
    cbn [raised snd] in Hpre. subst rp.
    destruct (parse_riak_repl_stats_data (JDict post)) as [lq rq].
    reflexivity. }
  split; [eexists; exact E|]. split; [|vm_compute; reflexivity].
  intros c fs f v x Hc Hf Hx. rewrite E.
  apply in_or_app. right. apply in_or_app. left.
  now apply (cluster_lines_in _ cs c fs f v x).
Qed.

Lemma fullsync_coordinator_metrics_witness :
  let pre := [("server_connects", JInt 2);
              ("realtime_queue_stats", JDict [("bytes", JInt 768)])] in
  let cs := [("clusterA", JDict [("queue_length", JInt 3);
                                 ("state", JStr "idle")]);
             ("clusterB", JDict [("in_progress", JBool true)])] in
  raised (parse_riak_repl_stats_data (JDict pre)) = None
  /\ cluster_map cs = true
  /\ In (cluster_metric "riak_repl_fullsync_coordinator_" "in_progress"
           "clusterB" (S754_finite false 4503599627370496 (-52)))
        (lines (parse_riak_repl_stats_data
                  (JDict (pre ++ ("fullsync_coordinator", JDict cs)
                                 :: [("cluster_name", JStr "east")])))).
Proof.
  split; [vm_compute; reflexivity|]. split; [vm_compute; reflexivity|].
  refine (proj1 (proj2 (fullsync_coordinator_metrics _ _ _ _ _))
            "clusterB" [("in_progress", JBool true)] "in_progress"
            (JBool true) _ _ _ _).
  - vm_compute; reflexivity.
  - vm_compute; reflexivity.
  - simpl; right; left; reflexivity.
  - simpl; left; reflexivity.
  - vm_compute; reflexivity.
Defined.

(** C8 fails as stated: a field that overflows [float()] stops the
    flattener before the fields after it, and an earlier key of unexpected
    shape stops it before [fullsync_coordinator] is reached. *)
Lemma fullsync_metric_not_emitted :
  let line := "riak_repl_fullsync_coordinator_queue_length{cluster="
              ++ dquote ++ "clusterA" ++ dquote ++ "} 3.0" in
  let d1 := JDict [("fullsync_coordinator",
                    JDict [("clusterA",
                            JDict [("bytes", JInt (2 ^ 1024));
                                   ("queue_length", JInt 3)])])] in
  let d2 := JDict [("realtime_queue_stats", JNull);
                   ("fullsync_coordinator",
                    JDict [("clusterA",
                            JDict [("queue_length", JInt 3)])])] in
  parse_riak_repl_stats_data d1 = ([], Some OverflowError)
  /\ ~ In line (lines (parse_riak_repl_stats_data d1))
  /\ parse_riak_repl_stats_data d2 = ([], Some AttributeError)
  /\ ~ In line (lines (parse_riak_repl_stats_data d2)).
Proof.
  repeat split; try (vm_compute; reflexivity); vm_compute; intros [].
Qed.

(** C1: the code does not do this.  Under [consumers] the flattener looks
    each cluster identifier up in the enclosing [realtime_queue_stats]
    mapping instead of the [consumers] mapping, and names the metric after
    the key [consumers] instead of the field: a document of the stated
    shape raises KeyError, and when the enclosing mapping happens to have
    a key equal to the cluster identifier, the fields found there come out
    as [riak_repl_realtime_queue_stats_consumers_consumers]. *)
Theorem consumers_looked_up_in_outer_mapping :
  (forall fs,
     parse_riak_repl_stats_data
       (JDict [("realtime_queue_stats",
                JDict [("consumers", JDict [("clusterA", JDict fs)])])])
     = ([], Some KeyError))
  /\ parse_riak_repl_stats_data
       (JDict [("realtime_queue_stats",
                JDict [("consumers",
                        JDict [("clusterA", JDict [("pending", JInt 3)])]);
                       ("clusterA", JDict [("drops", JInt 7)])])])
     = (["riak_repl_realtime_queue_stats_consumers_consumers{cluster="
         ++ dquote ++ "clusterA" ++ dquote ++ "} 7.0"], None).
Proof.
  split; [|vm_compute; reflexivity].
  intros fs. reflexivity.
Qed.

(** ** The request handler *)

Ltac lines_end :=
  repeat first
    [ apply for_items_lines; intros
    | apply for_in_lines; intros
    | apply if_number_lines; intros
    | apply seq_lines
    | match goal with
      | |- Forall _ (lines (if ?b then _ else _)) => destruct b
      | |- Forall _ (lines (match ?s with inl _ => _ | inr _ => _ end)) =>
          destruct s as [?|[? ?]]
      | |- Forall _ (lines (yield _)) => constructor; [|constructor]
      | |- Forall _ (lines skip) => constructor
      | |- Forall _ (lines (raise _)) => constructor
      end ].

Ltac text_end :=
  repeat match goal with
         | |- ends_visibly (_ ++ _) => apply ends_visibly_app
         end;
  apply float_repr_ends.

Lemma repl_lines_end v :
  Forall ends_visibly (lines (parse_riak_repl_stats_data v)).
Proof.
  unfold parse_riak_repl_stats_data. lines_end; text_end.
Qed.

Lemma join_ok g l :
  g = (l, None) -> join newline g = inr (String.concat newline l).
Proof. now intros ->. Qed.

Lemma render_ok d1 d2 l1 l2 :
  parse_riak_stats_data d1 = (l1, None) ->
  parse_riak_repl_stats_data d2 = (l2, None) ->
  render d1 d2
  = inr (ok_response (String.concat newline l1 ++ newline
                      ++ String.concat newline l2 ++ newline)).
Proof.
  intros H1 H2. unfold render.
  now rewrite (join_ok _ l1 H1), (join_ok _ l2 H2).
Qed.

(** The section of a flattener, followed by newlines only. *)
Lemma section_then_newlines (l : list string) (tail : string) :
  Forall ends_visibly l ->
  trailing_newlines tail = String.length tail ->
  trailing_newlines (String.concat newline l ++ tail) = String.length tail.
Proof.
  intros Hl Ht. destruct l as [|a l]; [exact Ht|].
  apply trailing_after_visible; [|exact Ht].
  apply concat_ends; [discriminate | exact Hl].
Qed.

(** C7, as amended.  For every pair of fetched documents neither of whose
    flattening raises, the handler answers 200, text/plain, with the body:
    primary lines joined by single newlines, a newline, replication lines
    joined by single newlines, a newline.  The body ends with exactly one
    newline when the replication section has a line, and with exactly two
    when it has none. *)
Theorem response_body_layout self w d1 d2 l1 l2 :
  outcome (w (riak_stats (app self))) = Decoded d1 ->
  outcome (w (riak_repl_stats (app self))) = Decoded d2 ->
  parse_riak_stats_data d1 = (l1, None) ->
  parse_riak_repl_stats_data d2 = (l2, None) ->
  let text := String.concat newline l1 ++ newline
              ++ String.concat newline l2 ++ newline in
  returned (scrape self w)
  = inr {| status := 200; content_type := "text/plain"; body := text |}
  /\ (l2 <> [] -> trailing_newlines text = 1%nat)
  /\ (l2 = [] -> trailing_newlines text = 2%nat).
Proof.
  intros Ha Hb H1 H2 text.
  rewrite (scrape_documents self w d1 d2) by (now left).
  cbn [returned]. rewrite (render_ok d1 d2 l1 l2 H1 H2).
  split; [reflexivity|].
  pose proof (primary_lines_end d1) as E1. rewrite H1 in E1.
  pose proof (repl_lines_end d2) as E2. rewrite H2 in E2.
  cbn [lines fst] in E1, E2. subst text. split.
  - intros Hne.
    replace (String.concat newline l1 ++ newline
             ++ String.concat newline l2 ++ newline)
      with ((String.concat newline l1 ++ newline
             ++ String.concat newline l2) ++ newline)
      by (now rewrite !append_assoc).
    apply (trailing_after_visible _ newline); [|reflexivity].
    do 2 apply ends_visibly_app. now apply concat_ends.
  - intros ->. cbn [String.concat append].
    apply (section_then_newlines l1 (newline ++ newline) E1). reflexivity.
Qed.

Lemma response_body_layout_witness :
  let self := default_handler true in
  let d1 := JDict [("vnode_gets", JInt 42)] in
  let d2 := JDict [("server_connects", JInt 2); ("sinks", JList [])] in
  let w := two_upstreams {| latency := 20; outcome := Decoded d1 |}
                         {| latency := 30; outcome := Decoded d2 |} in
  parse_riak_stats_data d1 = (["riak_vnode_gets 42.0"], None)
  /\ parse_riak_repl_stats_data d2 = (["riak_repl_server_connects 2.0"], None)
  /\ returned (scrape self w)
     = inr {| status := 200; content_type := "text/plain";
              body := "riak_vnode_gets 42.0" ++ newline
                      ++ "riak_repl_server_connects 2.0" ++ newline |}.
Proof.
  assert (H1 : parse_riak_stats_data (JDict [("vnode_gets", JInt 42)])
               = (["riak_vnode_gets 42.0"], None))
    by (vm_compute; reflexivity).
  assert (H2 : parse_riak_repl_stats_data
                 (JDict [("server_connects", JInt 2); ("sinks", JList [])])
               = (["riak_repl_server_connects 2.0"], None))
    by (vm_compute; reflexivity).
  split; [exact H1|]. split; [exact H2|].
  exact (proj1 (response_body_layout (default_handler true)
                  (two_upstreams
                     {| latency := 20;
                        outcome := Decoded (JDict [("vnode_gets", JInt 42)]) |}
                     {| latency := 30;
                        outcome :=
                          Decoded (JDict [("server_connects", JInt 2);
                                          ("sinks", JList [])]) |})
                  _ _ _ _ eq_refl eq_refl H1 H2)).
Defined.

(** C7 fails as stated: when the replication document yields no line the
    body ends with two newlines, not one. *)
Lemma empty_replication_section_ends_twice :
  let w := two_upstreams
             {| latency := 20;
                outcome := Decoded (JDict [("vnode_gets", JInt 42)]) |}
             {| latency := 30; outcome := Decoded (JDict []) |} in
  returned (scrape (default_handler true) w)
  = inr {| status := 200; content_type := "text/plain";
           body := "riak_vnode_gets 42.0" ++ newline ++ newline |}
  /\ trailing_newlines ("riak_vnode_gets 42.0" ++ newline ++ newline) = 2%nat
  /\ trailing_newlines ("riak_vnode_gets 42.0" ++ newline ++ newline)
     <> 1%nat.
Proof.
  split; [vm_compute; reflexivity|].
  split; [vm_compute; reflexivity | vm_compute; discriminate].
Qed.

Lemma scrape_abort self w e :
  RAISE_ERROR self = true ->
  failure (outcome (w (riak_stats (app self)))) = Some e ->
  scrape self w
  = {| trace := [fetch_event w (riak_stats (app self)) 0];
       finished := latency (w (riak_stats (app self)));
       returned := inl (HTTPError 500 e) |}.
Proof.
  intros Hflag H. unfold scrape, get.
  now rewrite (run_fetch_abort self w _ _ 0%N e Hflag H), N.add_0_l.
Qed.


(** C10.  When the primary fetch fails and failures are propagated, the
    scrape dispatches the primary fetch and nothing else, and ends by
    raising HTTPError(500) with the failure's description: the replication
    endpoint is not contacted. *)
Theorem primary_failure_skips_replication self w e :
  RAISE_ERROR self = true ->
  failure (outcome (w (riak_stats (app self)))) = Some e ->
  trace (scrape self w) = [fetch_event w (riak_stats (app self)) 0]
  /\ returned (scrape self w) = inl (HTTPError 500 e)
  /\ (riak_repl_stats (app self) <> riak_stats (app self) ->
      ~ In (riak_repl_stats (app self))
           (List.map ev_url (trace (scrape self w)))).
Proof.
  intros Hflag H. rewrite (scrape_abort self w e Hflag H).
  cbn [trace returned List.map fetch_event ev_url].
  repeat split. intros Hne [E|[]]. now apply Hne.
Qed.

Lemma primary_failure_skips_replication_witness :
  let self := default_handler true in
  let w := two_upstreams
             {| latency := 5000;
                outcome := FetchFailed "HTTP 599: Timeout" |}
             {| latency := 30;
                outcome := Decoded (JDict [("server_connects", JInt 2)]) |} in
  RAISE_ERROR self = true
  /\ failure (outcome (w (riak_stats (app self))))
     = Some "HTTP 599: Timeout"
  /\ List.map ev_url (trace (scrape self w)) = [DEFAULT_RIAK_STATS]
  /\ returned (scrape self w) = inl (HTTPError 500 "HTTP 599: Timeout").
Proof.
  split; [reflexivity|]. split; [reflexivity|].
  pose proof (primary_failure_skips_replication (default_handler true)
                (two_upstreams
                   {| latency := 5000;
                      outcome := FetchFailed "HTTP 599: Timeout" |}
                   {| latency := 30;
                      outcome :=
                        Decoded (JDict [("server_connects", JInt 2)]) |})
                "HTTP 599: Timeout" eq_refl eq_refl) as (Ht & Hr & _).
  split; [|exact Hr].
  exact (eq_trans (f_equal (List.map ev_url) Ht) eq_refl).
Defined.

(** C3, as amended.  The two fetches of a scrape run one after the other:
    the replication fetch is dispatched when the primary fetch has
    resolved, not before, so when both succeed the scrape takes the sum of
    the two fetch times (awaiting a fetch being all that takes time). *)
Theorem fetches_run_one_after_the_other self w d1 d2 :
  outcome (w (riak_stats (app self))) = Decoded d1 ->
  outcome (w (riak_repl_stats (app self))) = Decoded d2 ->
  trace (scrape self w)
  = [fetch_event w (riak_stats (app self)) 0;
     fetch_event w (riak_repl_stats (app self))
       (latency (w (riak_stats (app self))))]
  /\ finished (scrape self w)
     = (latency (w (riak_stats (app self)))
        + latency (w (riak_repl_stats (app self))))%N.
Proof.
  intros H1 H2.
  rewrite (scrape_documents self w d1 d2) by (now left).
  now split.
Qed.

Lemma fetches_run_one_after_the_other_witness :
  let self := default_handler true in
  let w := two_upstreams
             {| latency := 3000; outcome := Decoded (JDict []) |}
             {| latency := 4000; outcome := Decoded (JDict []) |} in
  outcome (w (riak_stats (app self))) = Decoded (JDict [])
  /\ outcome (w (riak_repl_stats (app self))) = Decoded (JDict [])
  /\ finished (scrape self w) = 7000%N.
Proof.
  split; [reflexivity|]. split; [reflexivity|].
  exact (proj2 (fetches_run_one_after_the_other (default_handler true)
                  (two_upstreams
                     {| latency := 3000; outcome := Decoded (JDict []) |}
                     {| latency := 4000; outcome := Decoded (JDict []) |})
                  (JDict []) (JDict []) eq_refl eq_refl)).
Defined.

(** C3 fails as stated: with fetches of 3 and 4 seconds, both succeeding,
    the replication fetch is dispatched at 3 seconds, when the primary one
    has resolved, and the scrape takes 7 seconds, not 4. *)
Lemma second_fetch_waits_for_first :
  let w := two_upstreams
             {| latency := 3000;
                outcome := Decoded (JDict [("vnode_gets", JInt 42)]) |}
             {| latency := 4000;
                outcome := Decoded (JDict [("server_connects", JInt 2)]) |} in
  let r := scrape (default_handler true) w in
  trace r
  = [{| ev_url := DEFAULT_RIAK_STATS;
        ev_dispatched := 0; ev_resolved := 3000 |};
     {| ev_url := DEFAULT_RIAK_REPL_STATS;
        ev_dispatched := 3000; ev_resolved := 7000 |}]
  /\ finished r = 7000%N
  /\ finished r <> N.max 3000 4000.
Proof.
  split; [vm_compute; reflexivity|].
  split; [vm_compute; reflexivity | vm_compute; discriminate].
Qed.





(** * Further properties of the code *)

Import Server More.

(** ** Both flatteners, entry by entry *)

(** X1.  An integer too large for a double stops either flattener where it
    stands: the lines of the entries before it have been yielded, the
    entries after it are never looked at, and OverflowError is raised,
    under whatever key the integer is found. *)
Theorem overflow_stops_the_flattener pre k v post :
  convertible v = false ->
  (all_convertible pre = true ->
   parse_riak_stats_data (JDict (pre ++ (k, v) :: post))
   = (scalar_lines "riak_" pre, Some OverflowError))
  /\ (raised (parse_riak_repl_stats_data (JDict pre)) = None ->
      parse_riak_repl_stats_data (JDict (pre ++ (k, v) :: post))
      = (lines (parse_riak_repl_stats_data (JDict pre)),
         Some OverflowError)).
Proof.
  intros Hv.
  change (pre ++ (k, v) :: post)%list with (pre ++ [(k, v)] ++ post)%list.
  split.
  - intros Hpre.
    rewrite !primary_app, (primary_ok pre Hpre), (primary_overflow k v Hv).
    cbn. now rewrite app_nil_r.
  - intros Hpre. rewrite !repl_app, (repl_overflow k v Hv).
    destruct (parse_riak_repl_stats_data (JDict pre)) as [lp rp].
    cbn [raised snd] in Hpre. subst rp. cbn. now rewrite app_nil_r.
Qed.

Lemma overflow_stops_the_flattener_witness :
  convertible (JInt (2 ^ 1024)) = false
  /\ all_convertible [("vnode_gets", JInt 42)] = true
  /\ parse_riak_stats_data
       (JDict [("vnode_gets", JInt 42); ("ring_size", JInt (2 ^ 1024));
               ("vnode_puts", JInt 7)])
     = (["riak_vnode_gets 42.0"], Some OverflowError).
Proof.
  assert (Hv : convertible (JInt (2 ^ 1024)) = false)
    by (vm_compute; reflexivity).
  assert (Hp : all_convertible [("vnode_gets", JInt 42)] = true)
    by (vm_compute; reflexivity).
  split; [exact Hv|]. split; [exact Hp|].
  refine (eq_trans
            (proj1 (overflow_stops_the_flattener
                      [("vnode_gets", JInt 42)] "ring_size"
                      (JInt (2 ^ 1024)) [("vnode_puts", JInt 7)] Hv) Hp) _).
  vm_compute; reflexivity.
Defined.

Lemma primary_single_length k v :
  (List.length (lines (parse_riak_stats_data (JDict [(k, v)]))) <= 1)%nat.
Proof.
  unfold parse_riak_stats_data, for_items.
  cbn [items for_each fst snd]. rewrite seq_skip_r. unfold if_number.
  destruct (number v) as [[e|x]|]; cbn; lia.
Qed.

Lemma lines_seq_length g1 g2 :
  (List.length (lines (seq g1 g2))
   <= List.length (lines g1) + List.length (lines g2))%nat.
Proof.
  destruct g1 as [l1 [e|]], g2 as [l2 r2]; unfold lines; cbn [seq fst snd].
  - lia.
  - rewrite length_app. lia.
Qed.

Lemma scalar_lines_length prefix d :
  List.length (scalar_lines prefix d)
  = List.length (List.filter (fun kv =>
                                match to_double (snd kv) with
                                | Some _ => true
                                | None => false
                                end) d).
Proof.
  induction d as [|[k v] d IH]; [reflexivity|].
  unfold scalar_lines in *. cbn [flat_map List.filter fst snd].
  rewrite length_app, IH.
  now destruct (to_double v).
Qed.

Lemma convertible_number v :
  convertible v = true ->
  is_number v = match to_double v with Some _ => true | None => false end.
Proof.
  unfold convertible, is_number, to_double.
  now destruct (number v) as [[e|x]|].
Qed.

(** X2.  The primary flattener never yields more lines than the document
    has top-level keys, whether or not it raises; when no integer
    overflows, it yields exactly as many lines as there are numeric or
    boolean values. *)
Theorem at_most_one_line_per_key d :
  (List.length (lines (parse_riak_stats_data (JDict d))) <= List.length d)%nat
  /\ (all_convertible d = true ->
      List.length (lines (parse_riak_stats_data (JDict d)))
      = count_numbers d).
Proof.
  split.
  - induction d as [|[k v] d IH]; [cbn; lia|].
    replace (parse_riak_stats_data (JDict ((k, v) :: d)))
      with (seq (parse_riak_stats_data (JDict [(k, v)]))
                (parse_riak_stats_data (JDict d)))
      by (symmetry; apply (primary_app [(k, v)] d)).
    pose proof (lines_seq_length
                  (parse_riak_stats_data (JDict [(k, v)]))
                  (parse_riak_stats_data (JDict d))) as H.
    pose proof (primary_single_length k v) as H1.
    cbn [List.length]. lia.
  - intros Hc. rewrite (primary_ok d Hc). cbn [lines fst].
    rewrite scalar_lines_length. unfold count_numbers.
    f_equal. apply filter_ext_in. intros kv Hin.
    symmetry. apply convertible_number.
    now apply (all_convertible_in d).
Qed.

Lemma at_most_one_line_per_key_witness :
  let d := [("vnode_gets", JInt 42); ("nodename", JStr "riak@127.0.0.1");
            ("connected", JBool true); ("ring_members", JList [])] in
  all_convertible d = true
  /\ List.length (lines (parse_riak_stats_data (JDict d))) = 2%nat.
Proof.
  split; [vm_compute; reflexivity|].
  refine (eq_trans (proj2 (at_most_one_line_per_key _) _) _);
    vm_compute; reflexivity.
Defined.

Lemma prefix_append (p s : string) : String.prefix p (p ++ s) = true.
Proof.
  induction p as [|a p IH]; cbn [append String.prefix].
  - now destruct s.
  - destruct (ascii_dec a a) as [_|N]; [exact IH | now elim N].
Qed.

Ltac line_shape p :=
  split;
  [ match goal with
    | |- String.prefix _ (?a ++ ?b) = true => apply (prefix_append p)
    end
  | text_end ].

(** X3.  Every line the primary flattener yields starts with [riak_] and
    every line the replication flattener yields starts with [riak_repl_],
    whatever the keys of the document are; no yielded line is empty or
    ends in a newline, since each ends with the text of its value. *)
Theorem yielded_lines_are_prefixed v :
  Forall (fun line => String.prefix "riak_" line = true
                      /\ ends_visibly line)
         (lines (parse_riak_stats_data v))
  /\ Forall (fun line => String.prefix "riak_repl_" line = true
                         /\ ends_visibly line)
            (lines (parse_riak_repl_stats_data v)).
Proof.
  split.
  - unfold parse_riak_stats_data. lines_end. line_shape "riak_".
  - unfold parse_riak_repl_stats_data. lines_end.
    + line_shape "riak_repl_".
    + line_shape "riak_repl_".
    + line_shape "riak_repl_".
    + line_shape "riak_repl_".
Qed.

Lemma repl_single_plain k v :
  special k = false ->
  parse_riak_repl_stats_data (JDict [(k, v)])
  = (List.map reprefix (lines (parse_riak_stats_data (JDict [(k, v)]))),
     raised (parse_riak_stats_data (JDict [(k, v)]))).
Proof.
  intros Hk. rewrite (repl_plain k v Hk).
  unfold parse_riak_stats_data, for_items.
  cbn [items for_each fst snd]. rewrite seq_skip_r. unfold if_number.
  destruct (number v) as [[e|x]|]; reflexivity.
Qed.

(** X4.  On a document none of whose top-level keys is
    [fullsync_coordinator] or [realtime_queue_stats] the two flatteners do
    the same thing up to the prefix: the replication flattener yields the
    primary flattener's lines with [riak_] replaced by [riak_repl_], in the
    same order, and raises exactly when the primary one does. *)
Theorem flatteners_agree_up_to_prefix d :
  no_special d = true ->
  parse_riak_repl_stats_data (JDict d)
  = (List.map reprefix (lines (parse_riak_stats_data (JDict d))),
     raised (parse_riak_stats_data (JDict d))).
Proof.
  induction d as [|[k v] d IH]; intros Hs; [reflexivity|].
  cbn [no_special forallb fst] in Hs.
  apply andb_prop in Hs as [Hk Hs]. apply negb_true_iff in Hk.
  rewrite repl_cons, (repl_single_plain k v Hk), (IH Hs).
  replace (parse_riak_stats_data (JDict ((k, v) :: d)))
    with (seq (parse_riak_stats_data (JDict [(k, v)]))
              (parse_riak_stats_data (JDict d)))
    by (symmetry; apply (primary_app [(k, v)] d)).
  destruct (parse_riak_stats_data (JDict [(k, v)])) as [l1 [e|]];
    destruct (parse_riak_stats_data (JDict d)) as [l2 r2];
    unfold lines, raised; cbn [seq fst snd]; [reflexivity|].
  now rewrite map_app.
Qed.

Lemma flatteners_agree_up_to_prefix_witness :
  let d := [("server_connects", JInt 2); ("cluster_name", JStr "east");
            ("server_bytes_sent", JInt (2 ^ 1024)); ("sinks", JInt 1)] in
  no_special d = true
  /\ parse_riak_stats_data (JDict d)
     = (["riak_server_connects 2.0"], Some OverflowError)
  /\ parse_riak_repl_stats_data (JDict d)
     = (["riak_repl_server_connects 2.0"], Some OverflowError).
Proof.
  split; [vm_compute; reflexivity|]. split; [vm_compute; reflexivity|].
  refine (eq_trans (flatteners_agree_up_to_prefix _ _) _);
    vm_compute; reflexivity.
Defined.

(** X5.  Both flatteners go through the entries one by one, in order, and
    give up at the first error: a document whose entries are [a] followed
    by [b] yields the lines of [a], then those of [b] if [a] raised
    nothing, and raises what [a] raises, otherwise what [b] raises. *)
Theorem flattening_is_entrywise a b :
  (lines (parse_riak_stats_data (JDict (a ++ b)))
   = (lines (parse_riak_stats_data (JDict a))
      ++ match raised (parse_riak_stats_data (JDict a)) with
         | Some _ => []
         | None => lines (parse_riak_stats_data (JDict b))
         end)%list
   /\ raised (parse_riak_stats_data (JDict (a ++ b)))
      = match raised (parse_riak_stats_data (JDict a)) with
        | Some e => Some e
        | None => raised (parse_riak_stats_data (JDict b))
        end)
  /\ (lines (parse_riak_repl_stats_data (JDict (a ++ b)))
      = (lines (parse_riak_repl_stats_data (JDict a))
         ++ match raised (parse_riak_repl_stats_data (JDict a)) with
            | Some _ => []
            | None => lines (parse_riak_repl_stats_data (JDict b))
            end)%list
      /\ raised (parse_riak_repl_stats_data (JDict (a ++ b)))
         = match raised (parse_riak_repl_stats_data (JDict a)) with
           | Some e => Some e
           | None => raised (parse_riak_repl_stats_data (JDict b))
           end).
Proof.
  rewrite primary_app, repl_app.
  destruct (parse_riak_stats_data (JDict a)) as [l1 [e1|]];
    destruct (parse_riak_repl_stats_data (JDict a)) as [l2 [e2|]];
    unfold lines, raised; cbn [seq fst snd];
    rewrite ?app_nil_r; repeat split.
Qed.

(** ** The special keys of the replication flattener *)

(** X6.  For a replication document in which flattening the entries before
    [realtime_queue_stats] raises nothing, and whose [realtime_queue_stats]
    value is a mapping without a [consumers] key and without an
    overflowing integer, the flattener yields, after the earlier lines and
    in the order of the mapping, one line
    [riak_repl_realtime_queue_stats_<field> <value>] per numeric or boolean
    field, and nothing for the other fields. *)
Theorem realtime_queue_stats_fields pre fs post :
  raised (parse_riak_repl_stats_data (JDict pre)) = None ->
  lacks "consumers" fs = true ->
  all_convertible fs = true ->
  parse_riak_repl_stats_data (JDict [("realtime_queue_stats", JDict fs)])
  = (scalar_lines "riak_repl_realtime_queue_stats_" fs, None)
  /\ lines (parse_riak_repl_stats_data
              (JDict (pre ++ ("realtime_queue_stats", JDict fs) :: post)))
     = (lines (parse_riak_repl_stats_data (JDict pre))
        ++ scalar_lines "riak_repl_realtime_queue_stats_" fs
        ++ lines (parse_riak_repl_stats_data (JDict post)))%list.
Proof.
  intros Hpre Hl Hc.
  assert (E : parse_riak_repl_stats_data
                (JDict [("realtime_queue_stats", JDict fs)])
              = (scalar_lines "riak_repl_realtime_queue_stats_" fs, None)).
  { rewrite realtime_entry. now apply realtime_loop. }
  split; [exact E|].
  change (pre ++ ("realtime_queue_stats", JDict fs) :: post)%list
    with (pre ++ [("realtime_queue_stats", JDict fs)] ++ post)%list.
  rewrite !repl_app, E.
  destruct (parse_riak_repl_stats_data (JDict pre)) as [lp rp].
  cbn [raised snd] in Hpre. subst rp.
  now destruct (parse_riak_repl_stats_data (JDict post)).
Qed.

Lemma realtime_queue_stats_fields_witness :
  let pre := [("server_connects", JInt 2)] in
  let fs := [("bytes", JInt 768); ("overload", JBool false);
             ("max_bytes", JStr "unlimited")] in
  raised (parse_riak_repl_stats_data (JDict pre)) = None
  /\ lacks "consumers" fs = true
  /\ all_convertible fs = true
  /\ parse_riak_repl_stats_data (JDict [("realtime_queue_stats", JDict fs)])
     = (["riak_repl_realtime_queue_stats_bytes 768.0";
         "riak_repl_realtime_queue_stats_overload 0.0"], None).
Proof.
  split; [vm_compute; reflexivity|]. split; [vm_compute; reflexivity|].
  split; [vm_compute; reflexivity|].
  refine (eq_trans
            (proj1 (realtime_queue_stats_fields
                      [("server_connects", JInt 2)] _ [] _ _ _)) _);
    vm_compute; reflexivity.
Defined.

(** X7.  Whatever the [consumers] mapping holds, as soon as its first
    cluster identifier is not itself a key of the enclosing
    [realtime_queue_stats] mapping the flattener raises KeyError: it has
    yielded the lines of the fields that stand before [consumers] and
    yields nothing for any consumer. *)
Theorem consumers_of_unknown_cluster before c v cs after :
  lacks "consumers" before = true ->
  all_convertible before = true ->
  dict_get c (before ++ ("consumers", JDict ((c, v) :: cs)) :: after) = None ->
  parse_riak_repl_stats_data
    (JDict [("realtime_queue_stats",
             JDict (before ++ ("consumers", JDict ((c, v) :: cs)) :: after))])
  = (scalar_lines "riak_repl_realtime_queue_stats_" before, Some KeyError).
Proof.
  intros Hl Hc Hget. rewrite realtime_entry.
  change (before ++ ("consumers", JDict ((c, v) :: cs)) :: after)%list
    with (before ++ [("consumers", JDict ((c, v) :: cs))] ++ after)%list
    at 1.
  rewrite !for_each_app, (realtime_loop _ before Hl Hc).
  cbn [for_each fst snd].
  change ("consumers" =? "consumers")%string with true. cbv iota.
  rewrite (if_number_skip (JDict _)) by reflexivity. rewrite seq_skip_l.
  unfold for_in. cbn [iter List.map for_each fst].
  unfold subscript at 1. cbn [as_scalar getitem]. rewrite Hget.
  cbn. now rewrite app_nil_r.
Qed.

Lemma consumers_of_unknown_cluster_witness :
  let before := [("bytes", JInt 768); ("drops", JInt 0)] in
  let cs := [("clusterB", JDict [("pending", JInt 1)])] in
  let v := JDict [("pending", JInt 3); ("unacked", JInt 0)] in
  lacks "consumers" before = true
  /\ all_convertible before = true
  /\ dict_get "clusterA"
       (before ++ ("consumers", JDict (("clusterA", v) :: cs))
               :: [("max_bytes", JInt 1048576)]) = None
  /\ parse_riak_repl_stats_data
       (JDict [("realtime_queue_stats",
                JDict (before ++ ("consumers", JDict (("clusterA", v) :: cs))
                              :: [("max_bytes", JInt 1048576)]))])
     = (["riak_repl_realtime_queue_stats_bytes 768.0";
         "riak_repl_realtime_queue_stats_drops 0.0"], Some KeyError).
Proof.
  split; [vm_compute; reflexivity|]. split; [vm_compute; reflexivity|].
  split; [vm_compute; reflexivity|].
  refine (eq_trans
            (consumers_of_unknown_cluster
               [("bytes", JInt 768); ("drops", JInt 0)] "clusterA" _ _ _
               _ _ _) _);
    vm_compute; reflexivity.
Defined.

Lemma for_each_raised_none {A} (xs : list A) body :
  raised (for_each xs body) = None ->
  forall x, In x xs -> raised (body x) = None.
Proof.
  induction xs as [|a xs IH]; intros H x Hin; [easy|].
  cbn [for_each] in H. rewrite raised_seq in H.
  destruct (raised (body a)) eqn:Ea; [discriminate|].
  destruct Hin as [<-|Hin]; [exact Ea | now apply IH].
Qed.

(** What an element of a list must be for the loop body to get through
    it: an index of the list, at which a mapping stands. *)
Lemma list_element_passes l x (body : scalar -> string -> json -> gen) :
  raised (match subscript (JList l) x with
          | inl e => raise e
          | inr (cluster, item) =>
              for_items (inr item) (body cluster)
          end) = None ->
  as_scalar x <> None /\ exists y, In y l /\ is_dict y = true.
Proof.
  unfold subscript. destruct (as_scalar x) as [c|]; [|discriminate].
  cbn [getitem]. intros H. split; [discriminate|].
  destruct (int_of_index c) as [i|]; [|discriminate].
  destruct (seq_index (List.length l) i) as [j|]; [|discriminate].
  destruct (nth_error l j) as [y|] eqn:Ey; [|discriminate].
  exists y. split; [now apply (nth_error_In l j)|].
  unfold for_items in H. now destruct y.
Qed.

(** X8.  Under [fullsync_coordinator] only a mapping gets through: a
    number, a boolean, null, a non-empty string and a non-empty array each
    make the flattener raise, whatever the array holds.  Only the empty
    string and the empty array pass, yielding nothing. *)
Theorem fullsync_coordinator_needs_a_mapping v rest :
  raised (parse_riak_repl_stats_data
            (JDict (("fullsync_coordinator", v) :: rest))) = None ->
  is_dict v = true \/ v = JList [] \/ v = JStr EmptyString.
Proof.
  intros H. rewrite repl_cons, raised_seq in H.
  destruct (raised (parse_riak_repl_stats_data
                      (JDict [("fullsync_coordinator", v)]))) eqn:E;
    [discriminate|]. clear H.
  destruct v as [|b|n|x|s|l|d];
    try (exfalso; revert E; apply fullsync_scalar_raises; reflexivity).
  - destruct s as [|a s]; [now right; right|].
    rewrite fullsync_entry, (if_number_skip (JStr _)), seq_skip_l in E
      by reflexivity.
    discriminate E.
  - destruct l as [|x l]; [now right; left|].
    rewrite fullsync_entry, (if_number_skip (JList _)), seq_skip_l in E
      by reflexivity.
    unfold for_in in E. cbn [iter] in E.
    pose proof (for_each_raised_none _ _ E) as Hall.
    destruct (list_element_passes (x :: l) x _ (Hall x (or_introl eq_refl)))
      as (_ & y & Hy & Hd).
    destruct (list_element_passes (x :: l) y _ (Hall y Hy)) as (Hs & _).
    destruct y; try discriminate Hd. now elim Hs.
  - now left.
Qed.

Lemma fullsync_coordinator_needs_a_mapping_witness :
  raised (parse_riak_repl_stats_data
            (JDict [("fullsync_coordinator", JList []);
                    ("server_connects", JInt 2)])) = None
  /\ (is_dict (JList []) = true \/ JList [] = JList []
      \/ JList [] = JStr EmptyString).
Proof.
  assert (H : raised (parse_riak_repl_stats_data
                        (JDict [("fullsync_coordinator", JList []);
                                ("server_connects", JInt 2)])) = None)
    by (vm_compute; reflexivity).
  split; [exact H|].
  exact (fullsync_coordinator_needs_a_mapping (JList []) _ H).
Defined.

(** ** The fetcher and the handler, in every world *)

Lemma failed_failure u : failed u = true -> exists e, failure u = Some e.
Proof. unfold failed. destruct (failure u) as [e|]; [now exists e | easy]. Qed.

Lemma not_failed_decoded u : failed u = false -> exists d, u = Decoded d.
Proof. destruct u as [d|e|e]; [now exists d | easy | easy]. Qed.

(** X9.  [fetch_riak_stats] makes one attempt and no more: whatever the
    upstream answers, exactly one fetch is dispatched and the coroutine
    ends when it resolves.  A decoded document is returned as it is.  The
    only exception that can leave it is HTTPError with code 500 and the
    description of the failure, and only with propagation on; with
    propagation off it never raises. *)
Theorem fetch_is_a_single_attempt self w url now :
  trace (run w (fetch_riak_stats self url) now) = [fetch_event w url now]
  /\ finished (run w (fetch_riak_stats self url) now)
     = (now + latency (w url))%N
  /\ (forall doc,
        outcome (w url) = Decoded doc ->
        returned (run w (fetch_riak_stats self url) now) = inr doc)
  /\ (forall e,
        returned (run w (fetch_riak_stats self url) now) = inl e ->
        RAISE_ERROR self = true
        /\ exists d, failure (outcome (w url)) = Some d
                     /\ e = HTTPError 500 d).
Proof.
  cbn [fetch_riak_stats run trace finished returned].
  destruct (outcome (w url)) as [d|d|d], (RAISE_ERROR self);
    cbn [run trace finished returned failure];
    (split; [reflexivity|]); (split; [reflexivity|]);
    (split; [intros doc H; now inversion H|]);
    intros e H; inversion H; subst;
    (split; [reflexivity | now exists d]).
Qed.

Lemma scrape_abort_at_second self w d1 e :
  RAISE_ERROR self = true ->
  outcome (w (riak_stats (app self))) = Decoded d1 ->
  failure (outcome (w (riak_repl_stats (app self)))) = Some e ->
  scrape self w
  = {| trace :=
         [fetch_event w (riak_stats (app self)) 0;
          fetch_event w (riak_repl_stats (app self))
            (latency (w (riak_stats (app self))))];
       finished := (latency (w (riak_stats (app self)))
                    + latency (w (riak_repl_stats (app self))))%N;
       returned := inl (HTTPError 500 e) |}.
Proof.
  intros Hflag H1 H2. unfold scrape, get.
  rewrite (run_fetch self w _ _ 0%N d1) by (now left). cbv zeta.
  rewrite (run_fetch_abort self w _ _ _ e Hflag H2).
  cbn [trace finished returned]. now rewrite N.add_0_l.
Qed.

(** X10.  In every world a scrape fetches each endpoint at most once, the
    primary one first at time 0 and the replication one exactly when the
    primary fetch has resolved; the replication fetch is left out only when
    the primary fetch failed with propagation on.  The scrape ends when the
    last fetch it dispatched resolves. *)
Theorem scrape_dispatch self w :
  if RAISE_ERROR self && failed (outcome (w (riak_stats (app self))))
  then trace (scrape self w) = [fetch_event w (riak_stats (app self)) 0]
       /\ finished (scrape self w) = latency (w (riak_stats (app self)))
  else trace (scrape self w)
       = [fetch_event w (riak_stats (app self)) 0;
          fetch_event w (riak_repl_stats (app self))
            (latency (w (riak_stats (app self))))]
       /\ finished (scrape self w)
          = (latency (w (riak_stats (app self)))
             + latency (w (riak_repl_stats (app self))))%N.
Proof.
  destruct (RAISE_ERROR self) eqn:Hflag; cbn [andb].
  - destruct (failed (outcome (w (riak_stats (app self))))) eqn:Ha.
    + destruct (failed_failure _ Ha) as [e He].
      now rewrite (scrape_abort self w e Hflag He).
    + destruct (not_failed_decoded _ Ha) as [d1 H1].
      destruct (failed (outcome (w (riak_repl_stats (app self))))) eqn:Hb.
      * destruct (failed_failure _ Hb) as [e He].
        now rewrite (scrape_abort_at_second self w d1 e Hflag H1 He).
      * destruct (not_failed_decoded _ Hb) as [d2 H2].
        now rewrite (scrape_documents self w d1 d2) by (now left).
  - destruct (substitute_resumes self w (riak_stats (app self)) Hflag)
      as (d1 & R1 & _).
    destruct (substitute_resumes self w (riak_repl_stats (app self)) Hflag)
      as (d2 & R2 & _).
    now rewrite (scrape_documents self w d1 d2 R1 R2).
Qed.

Lemma join_raised g e : raised g = Some e -> join newline g = inl e.
Proof. unfold join. now intros ->. Qed.

Lemma join_lines g : raised g = None ->
  join newline g = inr (String.concat newline (lines g)).
Proof. unfold join. now intros ->. Qed.

(** X11.  An exception raised while flattening is never caught, whatever
    [RAISE_ERROR] says: once both documents are fetched, an error in the
    primary document ends the scrape with that error even if the
    replication document is fine, and an error in the replication document
    does so when the primary one flattens. *)
Theorem flattening_errors_escape self w d1 d2 e :
  outcome (w (riak_stats (app self))) = Decoded d1 ->
  outcome (w (riak_repl_stats (app self))) = Decoded d2 ->
  (raised (parse_riak_stats_data d1) = Some e ->
   returned (scrape self w) = inl e)
  /\ (raised (parse_riak_stats_data d1) = None ->
      raised (parse_riak_repl_stats_data d2) = Some e ->
      returned (scrape self w) = inl e).
Proof.
  intros H1 H2.
  rewrite (scrape_documents self w d1 d2) by (now left).
  cbn [returned]. unfold render. split.
  - intros E. now rewrite (join_raised _ e E).
  - intros E1 E2. now rewrite (join_lines _ E1), (join_raised _ e E2).
Qed.

Lemma flattening_errors_escape_witness :
  let d1 := JDict [("vnode_gets", JInt 42)] in
  let d2 := JDict [("realtime_queue_stats",
                    JDict [("consumers",
                            JDict [("clusterA",
                                    JDict [("pending", JInt 3)])])])] in
  let w := two_upstreams {| latency := 20; outcome := Decoded d1 |}
                         {| latency := 30; outcome := Decoded d2 |} in
  raised (parse_riak_stats_data d1) = None
  /\ raised (parse_riak_repl_stats_data d2) = Some KeyError
  /\ returned (scrape (default_handler false) w) = inl KeyError.
Proof.
  split; [vm_compute; reflexivity|]. split; [vm_compute; reflexivity|].
  refine (proj2 (flattening_errors_escape (default_handler false)
                   (two_upstreams
                      {| latency := 20;
                         outcome := Decoded (JDict [("vnode_gets", JInt 42)]) |}
                      {| latency := 30; outcome := Decoded _ |})
                   _ _ KeyError eq_refl eq_refl) _ _);
    vm_compute; reflexivity.
Defined.

Lemma not_dict_primary v :
  is_dict v = false -> parse_riak_stats_data v = raise AttributeError.
Proof. now destruct v. Qed.

Lemma not_dict_repl v :
  is_dict v = false -> parse_riak_repl_stats_data v = raise AttributeError.
Proof. now destruct v. Qed.

(** X12.  A decoded body that is not a JSON object (an array, a string, a
    number, null) is no document for the flatteners: each raises
    AttributeError at once, and a scrape whose primary upstream answers
    such a body ends with AttributeError even with propagation off. *)
Theorem non_object_body_aborts v :
  is_dict v = false ->
  parse_riak_stats_data v = ([], Some AttributeError)
  /\ parse_riak_repl_stats_data v = ([], Some AttributeError)
  /\ (forall self w,
        RAISE_ERROR self = false ->
        outcome (w (riak_stats (app self))) = Decoded v ->
        returned (scrape self w) = inl AttributeError).
Proof.
  intros Hv. split; [now apply not_dict_primary|].
  split; [now apply not_dict_repl|].
  intros self w Hflag H1.
  destruct (substitute_resumes self w (riak_repl_stats (app self)) Hflag)
    as (d2 & R2 & _).
  rewrite (scrape_documents self w v d2) by (assumption || now left).
  cbn [returned]. unfold render.
  now rewrite (not_dict_primary v Hv).
Qed.

Lemma non_object_body_aborts_witness :
  let w := two_upstreams
             {| latency := 20; outcome := Decoded (JList []) |}
             {| latency := 30; outcome := Decoded (JDict []) |} in
  is_dict (JList []) = false
  /\ returned (scrape (default_handler false) w) = inl AttributeError.
Proof.
  split; [reflexivity|].
  exact (proj2 (proj2 (non_object_body_aborts (JList []) eq_refl))
           (default_handler false)
           (two_upstreams
              {| latency := 20; outcome := Decoded (JList []) |}
              {| latency := 30; outcome := Decoded (JDict []) |})
           eq_refl eq_refl).
Defined.

Lemma fetch_is_a_single_attempt_witness :
  let w := two_upstreams
             {| latency := 20;
                outcome := Decoded (JDict [("vnode_gets", JInt 42)]) |}
             {| latency := 30; outcome := DecodeFailed "Expecting value" |} in
  outcome (w DEFAULT_RIAK_STATS) = Decoded (JDict [("vnode_gets", JInt 42)])
  /\ returned (run w (fetch_riak_stats (default_handler true)
                        DEFAULT_RIAK_STATS) 7)
     = inr (JDict [("vnode_gets", JInt 42)]).
Proof.
  split; [reflexivity|].
  exact (proj1 (proj2 (proj2
           (fetch_is_a_single_attempt (default_handler true)
              (two_upstreams
                 {| latency := 20;
                    outcome := Decoded (JDict [("vnode_gets", JInt 42)]) |}
                 {| latency := 30;
                    outcome := DecodeFailed "Expecting value" |})
              DEFAULT_RIAK_STATS 7)))
           (JDict [("vnode_gets", JInt 42)]) eq_refl).
Defined.

Lemma scrape_cases self w :
  (exists e, returned (scrape self w) = inl (HTTPError 500 e))
  \/ (exists d1 d2,
        List.length (trace (scrape self w)) = 2%nat
        /\ returned (scrape self w) = render d1 d2).
Proof.
  destruct (RAISE_ERROR self) eqn:Hflag.
  - destruct (failed (outcome (w (riak_stats (app self))))) eqn:Ha.
    + destruct (failed_failure _ Ha) as [e He]. left. exists e.
      now rewrite (scrape_abort self w e Hflag He).
    + destruct (not_failed_decoded _ Ha) as [d1 H1].
      destruct (failed (outcome (w (riak_repl_stats (app self))))) eqn:Hb.
      * destruct (failed_failure _ Hb) as [e He]. left. exists e.
        now rewrite (scrape_abort_at_second self w d1 e Hflag H1 He).
      * destruct (not_failed_decoded _ Hb) as [d2 H2].
        right. exists d1, d2.
        now rewrite (scrape_documents self w d1 d2) by (now left).
  - destruct (substitute_resumes self w (riak_stats (app self)) Hflag)
      as (d1 & R1 & _).
    destruct (substitute_resumes self w (riak_repl_stats (app self)) Hflag)
      as (d2 & R2 & _).
    right. exists d1, d2.
    now rewrite (scrape_documents self w d1 d2 R1 R2).
Qed.

Lemma render_response d1 d2 r :
  render d1 d2 = inr r ->
  exists l1 l2,
    Forall ends_visibly l1 /\ Forall ends_visibly l2
    /\ r = ok_response (String.concat newline l1 ++ newline
                        ++ String.concat newline l2 ++ newline).
Proof.
  unfold render, join. intros H.
  pose proof (primary_lines_end d1) as E1.
  pose proof (repl_lines_end d2) as E2.
  destruct (parse_riak_stats_data d1) as [l1 [e1|]]; [discriminate|].
  destruct (parse_riak_repl_stats_data d2) as [l2 [e2|]]; [discriminate|].
  cbn [raised lines fst snd] in *. exists l1, l2.
  injection H as <-. now repeat split.
Qed.

Lemma body_trailing l1 l2 :
  Forall ends_visibly l1 -> Forall ends_visibly l2 ->
  trailing_newlines (String.concat newline l1 ++ newline
                     ++ String.concat newline l2 ++ newline)
  = match l2 with [] => 2%nat | _ => 1%nat end.
Proof.
  intros E1 E2. destruct l2 as [|b l2].
  - cbn [String.concat append].
    apply (section_then_newlines l1 (newline ++ newline) E1). reflexivity.
  - replace (String.concat newline l1 ++ newline
             ++ String.concat newline (b :: l2) ++ newline)
      with ((String.concat newline l1 ++ newline
             ++ String.concat newline (b :: l2)) ++ newline)
      by (now rewrite !append_assoc).
    apply (trailing_after_visible _ newline); [|reflexivity].
    do 2 apply ends_visibly_app. now apply concat_ends.
Qed.

(** X13.  Whenever a scrape answers at all, in whatever world and with
    whatever setting of [RAISE_ERROR], the answer is 200, text/plain, both
    upstreams have been fetched, and the body ends with one or two
    newlines: it is never empty and never cut short of its final
    newline. *)
Theorem answers_are_well_formed self w r :
  returned (scrape self w) = inr r ->
  status r = 200
  /\ content_type r = "text/plain"
  /\ (trailing_newlines (body r) = 1%nat
      \/ trailing_newlines (body r) = 2%nat)
  /\ List.length (trace (scrape self w)) = 2%nat.
Proof.
  intros H. destruct (scrape_cases self w) as [[e He]|(d1 & d2 & Ht & Hr)].
  - rewrite He in H. discriminate.
  - rewrite Hr in H.
    destruct (render_response d1 d2 r H) as (l1 & l2 & E1 & E2 & ->).
    cbn [ok_response status content_type body].
    repeat split; [|exact Ht].
    rewrite (body_trailing l1 l2 E1 E2). destruct l2; [now right | now left].
Qed.

Lemma answers_are_well_formed_witness :
  let w := two_upstreams
             {| latency := 20;
                outcome := Decoded (JDict [("vnode_gets", JInt 42)]) |}
             {| latency := 30; outcome := FetchFailed "HTTP 503: Busy" |} in
  let r := {| status := 200; content_type := "text/plain";
              body := "riak_vnode_gets 42.0" ++ newline ++ newline |} in
  returned (scrape (default_handler false) w) = inr r
  /\ List.length (trace (scrape (default_handler false) w)) = 2%nat.
Proof.
  intros w r.
  assert (H : returned (scrape (default_handler false) w) = inr r)
    by (vm_compute; reflexivity).
  split; [exact H|].
  exact (proj2 (proj2 (proj2
           (answers_are_well_formed (default_handler false) w r H)))).
Defined.

(** X14.  With propagation off, a scrape whose two fetches both fail still
    answers 200: both endpoints are fetched, and the body is two newlines
    and nothing else. *)
Theorem all_upstreams_down self w :
  RAISE_ERROR self = false ->
  failed (outcome (w (riak_stats (app self)))) = true ->
  failed (outcome (w (riak_repl_stats (app self)))) = true ->
  returned (scrape self w)
  = inr {| status := 200; content_type := "text/plain";
           body := newline ++ newline |}
  /\ List.map ev_url (trace (scrape self w))
     = [riak_stats (app self); riak_repl_stats (app self)].
Proof.
  intros Hflag Ha Hb.
  destruct (failed_failure _ Ha) as [ea Hea].
  destruct (failed_failure _ Hb) as [eb Heb].
  rewrite (scrape_documents self w DEFAULT_DATA DEFAULT_DATA).
  - now split.
  - right. repeat split; [exact Hflag | now rewrite Hea].
  - right. repeat split; [exact Hflag | now rewrite Heb].
Qed.

Lemma all_upstreams_down_witness :
  let w := two_upstreams
             {| latency := 5000;
                outcome := FetchFailed "HTTP 599: Timeout" |}
             {| latency := 1; outcome := DecodeFailed "Expecting value" |} in
  RAISE_ERROR (default_handler false) = false
  /\ failed (outcome (w DEFAULT_RIAK_STATS)) = true
  /\ failed (outcome (w DEFAULT_RIAK_REPL_STATS)) = true
  /\ returned (scrape (default_handler false) w)
     = inr {| status := 200; content_type := "text/plain";
              body := newline ++ newline |}.
Proof.
  split; [reflexivity|]. split; [reflexivity|]. split; [reflexivity|].
  exact (proj1 (all_upstreams_down (default_handler false)
                  (two_upstreams
                     {| latency := 5000;
                        outcome := FetchFailed "HTTP 599: Timeout" |}
                     {| latency := 1;
                        outcome := DecodeFailed "Expecting value" |})
                  eq_refl eq_refl eq_refl)).
Defined.

(** ** The server *)

Lemma or_default_nonempty x default :
  default <> EmptyString -> or_default x default <> EmptyString.
Proof. unfold or_default. destruct x as [[|a s]|]; easy. Qed.

Lemma scrape_urls self w :
  List.map ev_url (trace (scrape self w))
  = if RAISE_ERROR self && failed (outcome (w (riak_stats (app self))))
    then [riak_stats (app self)]
    else [riak_stats (app self); riak_repl_stats (app self)].
Proof.
  destruct (RAISE_ERROR self) eqn:Hflag; cbn [andb].
  - destruct (failed (outcome (w (riak_stats (app self))))) eqn:Ha.
    + destruct (failed_failure _ Ha) as [e He].
      now rewrite (scrape_abort self w e Hflag He).
    + destruct (not_failed_decoded _ Ha) as [d1 H1].
      destruct (failed (outcome (w (riak_repl_stats (app self))))) eqn:Hb.
      * destruct (failed_failure _ Hb) as [e He].
        now rewrite (scrape_abort_at_second self w d1 e Hflag H1 He).
      * destruct (not_failed_decoded _ Hb) as [d2 H2].
        now rewrite (scrape_documents self w d1 d2) by (now left).
  - destruct (substitute_resumes self w (riak_stats (app self)) Hflag)
      as (d1 & R1 & _).
    destruct (substitute_resumes self w (riak_repl_stats (app self)) Hflag)
      as (d2 & R2 & _).
    now rewrite (scrape_documents self w d1 d2 R1 R2).
Qed.

(** X15.  However the server is constructed, a missing, empty or zero
    argument gives way to the default of the class
    ([http://localhost:8098/stats], [http://localhost:8098/riak-repl/stats],
    [0.0.0.0], 8097, [/metrics]) and any other argument is kept as given,
    so the server never runs on an empty URL, address or endpoint, nor on
    port 0.  A handler of the application [make_app] builds fetches the
    server's primary URL first and, unless that fetch fails, its
    replication URL next, and nothing else. *)
Theorem configuration_is_never_empty a b c p e :
  let s := init a b c p e in
  ((a = None \/ a = Some EmptyString ->
    _riak_stats s = "http://localhost:8098/stats")
   /\ (b = None \/ b = Some EmptyString ->
       _riak_repl_stats s = "http://localhost:8098/riak-repl/stats")
   /\ (c = None \/ c = Some EmptyString -> _address s = "0.0.0.0")
   /\ (p = None \/ p = Some 0 -> _port s = 8097)
   /\ (e = None \/ e = Some EmptyString -> _endpoint s = "/metrics"))
  /\ ((forall u, a = Some u -> u <> EmptyString -> _riak_stats s = u)
      /\ (forall u, b = Some u -> u <> EmptyString -> _riak_repl_stats s = u)
      /\ (forall u, c = Some u -> u <> EmptyString -> _address s = u)
      /\ (forall n, p = Some n -> n <> 0 -> _port s = n)
      /\ (forall u, e = Some u -> u <> EmptyString -> _endpoint s = u))
  /\ (_riak_stats s <> EmptyString /\ _riak_repl_stats s <> EmptyString
      /\ _address s <> EmptyString /\ _port s <> 0
      /\ _endpoint s <> EmptyString)
  /\ (forall w,
        let h := MetricsHandler_new (snd (Server.make_app s)) in
        List.map ev_url (trace (scrape h w))
        = if failed (outcome (w (_riak_stats s)))
          then [_riak_stats s]
          else [_riak_stats s; _riak_repl_stats s]).
Proof.
  cbn [init _riak_stats _riak_repl_stats _address _port _endpoint].
  split; [|split; [|split]].
  - repeat split; intros [->| ->]; reflexivity.
  - repeat split;
      try (intros u -> Hu; destruct u; [now elim Hu | reflexivity]).
    intros n -> Hn. destruct n; [now elim Hn | reflexivity | reflexivity].
  - repeat split; try (apply or_default_nonempty; discriminate).
    unfold int_or_default. destruct p as [[|n|n]|]; discriminate.
  - intros w. cbv zeta. rewrite scrape_urls. reflexivity.
Qed.

Lemma configuration_is_never_empty_witness :
  let s := init (Some "http://riak-1:8098/stats") (Some EmptyString) None
                (Some 0) (Some "/prom") in
  ("http://riak-1:8098/stats" <> EmptyString
   /\ _riak_stats s = "http://riak-1:8098/stats")
  /\ ((Some EmptyString = None \/ Some EmptyString = Some EmptyString)
      /\ _riak_repl_stats s = "http://localhost:8098/riak-repl/stats")
  /\ ((Some 0 = None \/ Some 0 = Some 0) /\ _port s = 8097)
  /\ ("/prom" <> EmptyString /\ _endpoint s = "/prom").
Proof.
  intros s.
  destruct (configuration_is_never_empty
              (Some "http://riak-1:8098/stats") (Some EmptyString) None
              (Some 0) (Some "/prom"))
    as ((_ & Db & _ & Dp & _) & (Ka & _ & _ & _ & Ke) & _).
  split; [|split; [|split]].
  - split; [discriminate|].
    exact (Ka "http://riak-1:8098/stats" eq_refl ltac:(discriminate)).
  - split; [now right | exact (Db (or_intror eq_refl))].
  - split; [now right | exact (Dp (or_intror eq_refl))].
  - split; [discriminate|].
    exact (Ke "/prom" eq_refl ltac:(discriminate)).
Defined.

(** ** Names are not kept apart *)

(** X16.  The replication flattener does not keep metric names apart: a
    field [f] of [realtime_queue_stats] and a top-level key
    [realtime_queue_stats_<f>] come out under the same name, as two lines
    that differ in their values only; nothing is merged or dropped. *)
Theorem nested_and_flat_names_collide f x y :
  (f =? "consumers")%string = false ->
  parse_riak_repl_stats_data
    (JDict [("realtime_queue_stats", JDict [(f, JFloat x)]);
            ("realtime_queue_stats_" ++ f, JFloat y)])
  = (["riak_repl_realtime_queue_stats_" ++ f ++ " " ++ float_repr x;
      "riak_repl_realtime_queue_stats_" ++ f ++ " " ++ float_repr y], None).
Proof.
  intros Hf.
  rewrite repl_cons, realtime_entry. cbn [for_each fst snd].
  rewrite Hf, !seq_skip_r.
  rewrite (repl_plain ("realtime_queue_stats_" ++ f) (JFloat y))
    by reflexivity.
  reflexivity.
Qed.

Lemma nested_and_flat_names_collide_witness :
  ("bytes" =? "consumers")%string = false
  /\ parse_riak_repl_stats_data
       (JDict [("realtime_queue_stats",
                JDict [("bytes", JFloat (S754_zero false))]);
               ("realtime_queue_stats_bytes",
                JFloat (S754_finite false 4503599627370496 (-52)))])
     = (["riak_repl_realtime_queue_stats_bytes 0.0";
         "riak_repl_realtime_queue_stats_bytes 1.0"], None).
Proof.
  split; [reflexivity|].
  refine (eq_trans (nested_and_flat_names_collide "bytes" _ _ eq_refl) _).
  vm_compute; reflexivity.
Defined.
